(** * Nmind Companion browser extension: the messaging router and the
      download and print services

    A shallow embedding of
    - [shared/nmind-messaging/Message.ts] (requests and tagged responses),
    - [shared/nmind-messaging/Endpoint.ts] (the request router),
    - [NativeHostClient.request] and [BackgroundListener.handleRequest]
      (the two request/response transport adapters),
    - [shared/nmind-services/DownloadService.ts] and [PrinterService.ts],
    followed by the properties of the specification that concern them. *)

From Stdlib Require Import ZArith Bool.
From stdpp Require Import base option list strings gmap.

#[local] Set Warnings "-register-all".
Local Open Scope Z_scope.
Local Open Scope string_scope.

(** ** JavaScript values

    The values that travel through the router are untyped ([any] and
    [unknown] in the source).  Numbers are the integral ones (status codes,
    byte counts, identifiers), held in [Z]: fractions, infinities and [NaN]
    are not among them.  An [Error] instance is its class name and its
    [message]; a promise is an opaque handle; functions are no values
    here. *)

Module Js.

Inductive Value : Type :=
| VUndefined
| VNull
| VBool (b : bool)
| VNum (n : Z)
| VStr (s : string)
| VArr (items : list Value)
| VObj (props : list (string * Value))
| VError (class message : string)
| VPromise (handle : nat)
| VResponse (r : Response)
with Response : Type :=
| Success (name refid content : Value)
| Failure (name type message : Value)
| Unknown (name message : Value)
| ScriptError (name type message : Value).

(** [code] is set once, by the constructor of each subclass. *)
Definition code (r : Response) : Z :=
  match r with
  | Success _ _ _ => 200
  | Failure _ _ _ => 403
  | Unknown _ _ => 404
  | ScriptError _ _ _ => 500
  end.

(** ToBoolean. *)
Definition truthy (v : Value) : bool :=
  match v with
  | VUndefined | VNull => false
  | VBool b => b
  | VNum n => negb (Z.eqb n 0)
  | VStr s => negb (String.eqb s "")
  | _ => true
  end.

(** [a || b]. *)
Definition or_else (a b : Value) : Value := if truthy a then a else b.

(** [typeof v === "object"] (true of [null] as well). *)
Definition typeof_object (v : Value) : bool :=
  match v with
  | VNull | VArr _ | VObj _ | VError _ _ | VPromise _ | VResponse _ => true
  | _ => false
  end.

Definition is_nullish (v : Value) : bool :=
  match v with VUndefined | VNull => true | _ => false end.

Definition is_array (v : Value) : bool :=
  match v with VArr _ => true | _ => false end.

Definition instanceof_Promise (v : Value) : bool :=
  match v with VPromise _ => true | _ => false end.

Definition instanceof_Response (v : Value) : bool :=
  match v with VResponse _ => true | _ => false end.

Fixpoint assoc (k : string) (props : list (string * Value)) : Value :=
  match props with
  | [] => VUndefined
  | (k', v) :: rest => if String.eqb k k' then v else assoc k rest
  end.

(** The fields of a response instance, by name. *)
Definition response_field (r : Response) (k : string) : Value :=
  match r with
  | Success name refid content =>
      if String.eqb k "code" then VNum 200
      else if String.eqb k "name" then name
      else if String.eqb k "refid" then refid
      else if String.eqb k "content" then content
      else VUndefined
  | Failure name type message =>
      if String.eqb k "code" then VNum 403
      else if String.eqb k "name" then name
      else if String.eqb k "type" then type
      else if String.eqb k "message" then message
      else VUndefined
  | Unknown name message =>
      if String.eqb k "code" then VNum 404
      else if String.eqb k "name" then name
      else if String.eqb k "message" then message
      else VUndefined
  | ScriptError name type message =>
      if String.eqb k "code" then VNum 500
      else if String.eqb k "name" then name
      else if String.eqb k "type" then type
      else if String.eqb k "message" then message
      else VUndefined
  end.

(** [v.k] for a [v] that is neither [null] nor [undefined], for the keys
    the modelled code reads ([code], [message], [type], ...): own
    properties of objects, the fields of a response, the [message] of an
    error.  Primitives, arrays and promises have none of them. *)
Definition get (v : Value) (k : string) : Value :=
  match v with
  | VObj props => assoc k props
  | VResponse r => response_field r k
  | VError class message =>
      if String.eqb k "message" then VStr message
      else if String.eqb k "name" then VStr class
      else VUndefined
  | _ => VUndefined
  end.

(** [v?.k]. *)
Definition get_opt (v : Value) (k : string) : Value :=
  if is_nullish v then VUndefined else get v k.

(** The [TypeError] raised by [v.k] on [undefined], and on [null]; the
    text is the engine's, here V8's. *)
Definition TypeError_read (k : string) : Value :=
  VError "TypeError" ("Cannot read properties of undefined (reading '" ++ k ++ "')").

Definition TypeError_read_null (k : string) : Value :=
  VError "TypeError" ("Cannot read properties of null (reading '" ++ k ++ "')").

(** [base.k] for a [base] that is [null] or [undefined]. *)
Definition TypeError_read_of (base : Value) (k : string) : Value :=
  match base with
  | VNull => TypeError_read_null k
  | _ => TypeError_read k
  end.

(** The functions that every object inherits from [Object.prototype]. *)
Definition Object_prototype_functions : list string :=
  ["constructor"; "__defineGetter__"; "__defineSetter__"; "hasOwnProperty";
   "__lookupGetter__"; "__lookupSetter__"; "isPrototypeOf"; "propertyIsEnumerable";
   "toString"; "valueOf"; "toLocaleString"].

(** The names under which every object finds something inherited: these
    functions, and the accessor [__proto__]. *)
Definition is_inherited (name : string) : bool :=
  String.eqb name "__proto__" || existsb (String.eqb name) Object_prototype_functions.

(** [v == n] for a number [n].  Numbers compare by value, booleans as 0
    and 1, [null] and [undefined] equal no number; a string or an object is
    first turned into a number by the engine's [ToNumber], which is left
    open here ([None] where it gives no integer). *)
Definition loose_eq_num (ToNumber : Value -> option Z) (v : Value) (n : Z) : bool :=
  match v with
  | VNum m => Z.eqb m n
  | VBool b => Z.eqb (if b then 1 else 0) n
  | VUndefined | VNull => false
  | _ => match ToNumber v with Some m => Z.eqb m n | None => false end
  end.

(** [v == undefined] *)
Definition loose_eq_undefined (v : Value) : bool := is_nullish v.

(** Turning an object into a string, as [String(v)] does and as setting
    [v] into a template does, calls methods of the object, and is left to
    the objects at hand: [ToString_throws v] is the exception that the
    conversion of the object [v] ends with, if it throws. *)
Class Conversion : Type := {
  ToString_throws : Value -> option Value;
}.

(** The conversion of [v] to a string, for what there is to see of it:
    whether it throws.  The conversion of a primitive never does. *)
Definition String_throws {conversion : Conversion} (v : Value) : option Value :=
  if typeof_object v && negb (is_nullish v) then ToString_throws v else None.

End Js.
Import Js.

(** ** Message.ts: requests and the four response classes *)

Module Message.

(** [class Request]: the constructor's defaults are [id = "-1"],
    [delay = 0], [async = false], [silent = false].  The router receives
    request-like objects of any origin, so the flags are plain values.
    The [name] is a string, as the class declares it: a request-like
    object without a name is not among the requests here. *)
Record Request : Type := {
  name : string;
  params : Value;
  id : Value;
  delay : Value;
  async : Value;
  silent : Value;
}.

Definition new_Request (name : string) (params : Value) : Request :=
  {| name := name; params := params; id := VStr "-1";
     delay := VNum 0; async := VBool false; silent := VBool false |}.

Definition new_Success (data name : Value) : Response :=
  Success name VUndefined data.

Definition new_Failure (message type name : Value) : Response :=
  Failure name (or_else type VNull) message.

Definition new_Unknown (message name : Value) : Response :=
  Unknown name message.

(** [new ScriptError(err, type, name)].  Inside the guard [err] is
    reassigned to [err.message] first, and [err.type] is read afterwards,
    from the reassigned variable. *)
Definition new_ScriptError (err type name : Value) : Response :=
  let '(err, type) :=
    if typeof_object err && negb (is_nullish err) && truthy (get err "message")
    then
      let err := if truthy (get err "message") then get err "message" else err in
      let type := if truthy (get err "type") then get err "type" else type in
      (err, type)
    else (err, type) in
  ScriptError name (or_else type VNull) err.

(** The static factory [Message]; an argument left out is [undefined]. *)
Definition success (data name : Value) : Response := new_Success data name.
Definition failure (message type name : Value) : Response := new_Failure message type name.
Definition error (err type name : Value) : Response := new_ScriptError err type name.
Definition unknown (message name : Value) : Response := new_Unknown message name.
Definition request (name : string) (params : Value) : Request := new_Request name params.

End Message.

(** ** Effects

    Handlers and forwarder methods are arbitrary functions: they act on the
    world outside the router (of a type [World] left open) and either
    return a value or throw one. *)

Module Eff.

Inductive Result (A : Type) : Type :=
| Ret (a : A)
| Thr (e : Value).
Arguments Ret {A} a.
Arguments Thr {A} e.

Definition M (World A : Type) : Type := World -> Result A * World.

Definition ret {World A : Type} (a : A) : M World A := fun w => (Ret a, w).

Definition throw {World A : Type} (e : Value) : M World A := fun w => (Thr e, w).

Definition bind {World A B : Type} (c : M World A) (k : A -> M World B) : M World B :=
  fun w =>
    match c w with
    | (Ret a, w') => k a w'
    | (Thr e, w') => (Thr e, w')
    end.

(** [try { body } catch (err) { handler }] *)
Definition try_catch {World A : Type} (body : M World A) (handler : Value -> M World A)
  : M World A :=
  fun w =>
    match body w with
    | (Ret a, w') => (Ret a, w')
    | (Thr e, w') => handler e w'
    end.

End Eff.
Import Eff.

Declare Scope eff_scope.
Delimit Scope eff_scope with eff.
Notation "x <- c ;; k" := (bind c (fun x => k))
  (at level 100, c at next level, right associativity) : eff_scope.

(** ** Endpoint.ts: the request router

    [routes] is a plain object used as a map from route names to handlers.
    A name is looked up among its own properties, which [on] writes and
    [off] deletes, and then along its prototype chain: every object
    inherits [toString], [constructor] and the like from
    [Object.prototype].  A registered handler is an arbitrary function of
    its arguments acting on the world.

    What [Logger.debug] and [Logger.error] write to the console is not
    modelled.  What they compute before they write is: [Logger.error]
    turns what it is given into a string, and that conversion may throw. *)

Module Endpoint.
Section Router.

Context {World : Type}.

Definition Handler : Type := list Value -> M World Value.

(** [request(route, params)] and [post(route, params)] of a forwarder. *)
Definition Method : Type := string -> Value -> M World Value.

(** What a property of [routes] holds: a function, or any other value
    ([undefined] for a property that is not there). *)
Inductive Held : Type :=
| Callable (f : Handler)
| Other (v : Value).

(** The prototype of [routes]: [Object.prototype], which [{}] starts
    with, or the function that an assignment to [routes["__proto__"]] has
    put in its place. *)
Inductive Prototype : Type :=
| ObjectPrototype
| FunctionObject (f : Handler).

(** What [routes[name] = handler] comes to for a name that is no own
    property of [routes]: an own property is created; or the assignment is
    taken by the setter of [__proto__], which replaces the prototype; or a
    property that cannot be written along the chain has it ignored, or
    refused with an exception. *)
Inductive Assignment : Type :=
| Creates
| SetsPrototype
| Ignores
| Refuses (err : Value).

(** What is left to the JavaScript engine and to the objects at hand:
    - [builtin name]: the function of that name that every object inherits
      from [Object.prototype], as it acts when [route] applies it to the
      endpoint ([toString] is given below);
    - [function_get f name] and [function_set f name]: what reading, and
      assigning to, the property [name] finds along the prototype chain
      when the function [f] has been made the prototype of [routes]. *)
Class Engine : Type := {
  builtin : string -> Handler;
  function_get : Handler -> string -> Result Held;
  function_set : Handler -> string -> Assignment;
}.

Context {conversion : Conversion} {engine : Engine}.

(** [Logger.error(err)]: a string is written as it is; otherwise the text
    is [err.message] when that is a string, and else
    [String(err?.message ?? err)]. *)
Definition Logger_error (err : Value) : Result unit :=
  match err with
  | VStr _ => Ret tt
  | _ =>
      match get_opt err "message" with
      | VStr _ => Ret tt
      | message =>
          match String_throws (if is_nullish message then err else message) with
          | Some raised => Thr raised
          | None => Ret tt
          end
      end
  end.

(** A pattern of [pipes.regexp]: an object with an identity and a [test]
    method (a pattern without the [g] and [y] flags, whose [test] keeps no
    state between calls). *)
Record RegExp : Type := {
  uid : nat;
  test : string -> bool;
}.

(** What [this.forwarder] holds: an object with, possibly, a callable
    [request] and a callable [post] ([{}] has neither), a reference to
    another endpoint (after [join]), or nothing ([undefined], [null]). *)
Inductive Forwarder : Type :=
| FwObject (request post : option Method)
| FwEndpoint (ref : nat)
| FwNullish.

(** The class whose [_createPipe] an instance runs: [Endpoint]'s own (also
    inherited by [TabListener], [BackgroundClient] and [NativeHostClient]),
    or the override of [BackgroundListener]. *)
Inductive Class : Type :=
| ClsEndpoint
| ClsBackgroundListener.

(** An endpoint.  [routes] are the own properties of the object of that
    name and [routes_proto] its prototype.  [pipes] are arrays that
    [unpipe] leaves holes in ([None]).  [request] and [post] are the
    methods a subclass adds ([Endpoint] itself defines neither). *)
Record Endpoint : Type := {
  cls : Class;
  routes : gmap string Handler;
  routes_proto : Prototype;
  pipes_plain : list (option string);
  pipes_regexp : list (option RegExp);
  forwarder : Forwarder;
  request : option Method;
  post : option Method;
}.

Definition new_Endpoint : Endpoint :=
  {| cls := ClsEndpoint; routes := ∅; routes_proto := ObjectPrototype;
     pipes_plain := []; pipes_regexp := [];
     forwarder := FwObject None None; request := None; post := None |}.

Definition set_routes (f : gmap string Handler -> gmap string Handler) (e : Endpoint) : Endpoint :=
  {| cls := cls e; routes := f (routes e); routes_proto := routes_proto e;
     pipes_plain := pipes_plain e; pipes_regexp := pipes_regexp e;
     forwarder := forwarder e; request := request e; post := post e |}.

Definition set_routes_proto (p : Prototype) (e : Endpoint) : Endpoint :=
  {| cls := cls e; routes := routes e; routes_proto := p;
     pipes_plain := pipes_plain e; pipes_regexp := pipes_regexp e;
     forwarder := forwarder e; request := request e; post := post e |}.

Definition set_pipes_plain (f : list (option string) -> list (option string)) (e : Endpoint)
  : Endpoint :=
  {| cls := cls e; routes := routes e; routes_proto := routes_proto e;
     pipes_plain := f (pipes_plain e); pipes_regexp := pipes_regexp e;
     forwarder := forwarder e; request := request e; post := post e |}.

Definition set_pipes_regexp (f : list (option RegExp) -> list (option RegExp)) (e : Endpoint)
  : Endpoint :=
  {| cls := cls e; routes := routes e; routes_proto := routes_proto e;
     pipes_plain := pipes_plain e; pipes_regexp := f (pipes_regexp e);
     forwarder := forwarder e; request := request e; post := post e |}.

Definition set_forwarder (fw : Forwarder) (e : Endpoint) : Endpoint :=
  {| cls := cls e; routes := routes e; routes_proto := routes_proto e;
     pipes_plain := pipes_plain e; pipes_regexp := pipes_regexp e; forwarder := fw;
     request := request e; post := post e |}.

(** Endpoints are objects held by reference: a heap of them. *)
Local Abbreviation Heap := (gmap nat Endpoint).

(** [Object.prototype.toString], applied to an endpoint. *)
Definition Object_prototype_toString : Handler := fun _ => ret (VStr "[object Object]").

(** [Object.prototype[name]], read through an object that inherits from
    it.  The getter of [__proto__] gives [Object.prototype] itself, an
    object none of whose properties is data. *)
Definition Object_prototype (name : string) : Held :=
  if String.eqb name "__proto__" then Other (VObj [])
  else if String.eqb name "toString" then Callable Object_prototype_toString
  else if existsb (String.eqb name) Object_prototype_functions then Callable (builtin name)
  else Other VUndefined.

(** [routes[name]] for a name that is no own property of [routes]; the
    getter of an inherited property may throw. *)
Definition inherited (p : Prototype) (name : string) : Result Held :=
  match p with
  | ObjectPrototype => Ret (Object_prototype name)
  | FunctionObject f => function_get f name
  end.

(** [this.routes[name]] *)
Definition routes_get (this : Endpoint) (name : string) : Result Held :=
  match routes this !! name with
  | Some handler => Ret (Callable handler)
  | None => inherited (routes_proto this) name
  end.

(** [routes[name] = handler] for a name that is no own property.  The
    properties of [Object.prototype] can all be written, and so shadowed,
    but [__proto__], whose setter replaces the prototype by the value
    assigned when that is an object, as a handler is. *)
Definition assignment (p : Prototype) (name : string) : Assignment :=
  match p with
  | ObjectPrototype => if String.eqb name "__proto__" then SetsPrototype else Creates
  | FunctionObject f => function_set f name
  end.

(** [on(name, handler)]; [None] is an argument that is not a function. *)
Definition on (e : Endpoint) (name : string) (handler : option Handler) : Result Endpoint :=
  match handler with
  | Some f =>
      match routes e !! name with
      | Some _ => Ret (set_routes (insert name f) e)
      | None =>
          match assignment (routes_proto e) name with
          | Creates => Ret (set_routes (insert name f) e)
          | SetsPrototype => Ret (set_routes_proto (FunctionObject f) e)
          | Ignores => Ret e
          | Refuses err => Thr err
          end
      end
  | None => Thr (VStr ("Handler for '" ++ name ++ "' is not a function"))
  end.

(** [off(name)]: [delete] removes an own property and nothing else. *)
Definition off (e : Endpoint) (name : string) : Result Endpoint :=
  match routes e !! name with
  | Some _ => Ret (set_routes (delete name) e)
  | None =>
      match inherited (routes_proto e) name with
      | Ret _ => Ret e
      | Thr err => Thr err
      end
  end.

(** An argument of [pipe] and [unpipe]. *)
Inductive PipeArg : Type :=
| PString (s : string)
| PRegExp (r : RegExp)
| POther.

(** [pipe(...routes)]: an argument that is neither a string nor a pattern
    ends the call. *)
Fixpoint pipe (e : Endpoint) (rs : list PipeArg) : Endpoint :=
  match rs with
  | [] => e
  | PString s :: rest => pipe (set_pipes_plain (fun l => (l ++ [Some s])%list) e) rest
  | PRegExp r :: rest => pipe (set_pipes_regexp (fun l => (l ++ [Some r])%list) e) rest
  | POther :: _ => e
  end.

(** [list.indexOf(route)]: holes are skipped. *)
Fixpoint indexOf {A : Type} (same : A -> A -> bool) (l : list (option A)) (x : A)
  : option nat :=
  match l with
  | [] => None
  | Some y :: rest => if same y x then Some O else S <$> indexOf same rest x
  | None :: rest => S <$> indexOf same rest x
  end.

(** [delete list[idx]] when [idx >= 0]. *)
Definition delete_slot {A : Type} (same : A -> A -> bool) (x : A) (l : list (option A))
  : list (option A) :=
  match indexOf same l x with
  | Some idx => <[idx := None]> l
  | None => l
  end.

Definition same_regexp (a b : RegExp) : bool := Nat.eqb (uid a) (uid b).

(** [unpipe(...routes)] *)
Fixpoint unpipe (e : Endpoint) (rs : list PipeArg) : Endpoint :=
  match rs with
  | [] => e
  | PString s :: rest => unpipe (set_pipes_plain (delete_slot String.eqb s) e) rest
  | PRegExp r :: rest => unpipe (set_pipes_regexp (delete_slot same_regexp r) e) rest
  | POther :: _ => e
  end.

(** [this.join(endpoint)], on references: both assignments, in order. *)
Definition join (h : Heap) (this endpoint : nat) : Heap :=
  alter (set_forwarder (FwEndpoint this)) endpoint
    (alter (set_forwarder (FwEndpoint endpoint)) this h).

(** [fw && typeof fw.request === "function"], with the method. *)
Definition callable_request (h : Heap) (fw : Forwarder) : option Method :=
  match fw with
  | FwObject rq _ => rq
  | FwEndpoint r => e ← h !! r; request e
  | FwNullish => None
  end.

Definition callable_post (h : Heap) (fw : Forwarder) : option Method :=
  match fw with
  | FwObject _ ps => ps
  | FwEndpoint r => e ← h !! r; post e
  | FwNullish => None
  end.

(** [forward(route, params)] *)
Definition forward (h : Heap) (this : Endpoint) (route : string) (params : Value)
  : M World Value :=
  match callable_request h (forwarder this) with
  | Some rq => rq route params
  | None =>
      match callable_post h (forwarder this) with
      | Some ps => ps route params
      | None => ret VUndefined
      end
  end.

(** The [params] that the handler of a pipe makes of its [arguments];
    [BackgroundListener] overrides [_createPipe] to drop the first
    argument, the port. *)
Definition pipe_params (c : Class) (arguments : list Value) : Value :=
  match c with
  | ClsEndpoint =>
      match arguments with
      | [] => VNull
      | [a] => a
      | _ => VArr arguments
      end
  | ClsBackgroundListener =>
      match arguments with
      | [_] => VNull
      | [_; a] => a
      | _ => VArr (tail arguments)
      end
  end.

(** The handler that [_createPipe(route)] returns, called with [this] as
    its context (the only way [route] calls it). *)
Definition _createPipe (h : Heap) (this : Endpoint) (route : string) : Handler :=
  fun arguments => forward h this route (pipe_params (cls this) arguments).

(** [pipes.plain.includes(name)], for a string [name]: a hole, which
    [includes] reads as [undefined], is equal to no string. *)
Definition includes (l : list (option string)) (name : string) : bool :=
  existsb (fun slot => match slot with Some s => String.eqb s name | None => false end) l.

(** The [for (const regexp of this.pipes.regexp)] loop of [_findRoute]. *)
Fixpoint _findRoute_regexp (h : Heap) (this : Endpoint) (l : list (option RegExp))
    (name : string) : option Handler :=
  match l with
  | [] => None
  | Some regexp :: rest =>
      if test regexp name then Some (_createPipe h this name)
      else _findRoute_regexp h this rest name
  | None :: rest => _findRoute_regexp h this rest name
  end.

(** [held !== undefined] *)
Definition is_undefined (held : Held) : bool :=
  match held with Other VUndefined => true | _ => false end.

(** [_findRoute(request)]: what [this.routes[request.name]] holds when
    that is not [undefined], a function or not; and otherwise the handler
    of a pipe, or [null] ([None]). *)
Definition _findRoute (h : Heap) (this : Endpoint) (request : Message.Request)
  : Result (option Held) :=
  match routes_get this (Message.name request) with
  | Thr err => Thr err
  | Ret held =>
      if negb (is_undefined held) then Ret (Some held)
      else if includes (pipes_plain this) (Message.name request)
      then Ret (Some (Callable (_createPipe h this (Message.name request))))
      else Ret (Callable <$> _findRoute_regexp h this (pipes_regexp this)
                               (Message.name request))
  end.

(** [_buildArguments(request, port)]; a port left out is [undefined]. *)
Definition _buildArguments (request : Message.Request) (port : Value) : list Value :=
  if truthy port then
    match Message.params request with
    | VArr items => port :: items
    | p => [port; p]
    end
  else
    match Message.params request with
    | VArr items => items
    | p => [p]
    end.

(** [route.apply(context, args)]: a value that is not a function has no
    [apply] to call. *)
Definition apply (route : Held) (args : list Value) : M World Value :=
  match route with
  | Callable f => f args
  | Other _ => throw (VError "TypeError" "route.apply is not a function")
  end.

(** [_routeCall(route, args, context)] *)
Definition _routeCall (route : Held) (args : list Value) : M World Value :=
  try_catch
    (response <- apply route args;;
     if instanceof_Promise response then ret response
     else if instanceof_Response response then ret response
     else ret (VResponse (Message.success response VUndefined)))%eff
    (fun err =>
       match Logger_error err with
       | Ret _ => ret (VResponse (Message.failure (get_opt err "message") VUndefined VUndefined))
       | Thr raised => throw raised
       end).

(** The three assignments at the start of [route]. *)
Definition normalize (request : Message.Request) : Message.Request :=
  {| Message.name := Message.name request;
     Message.params := Message.params request;
     Message.id := Message.id request;
     Message.delay := or_else (Message.delay request) (VNum 0);
     Message.async := or_else (Message.async request) (VBool false);
     Message.silent := or_else (Message.silent request) (VBool false) |}.

(** [v === false] *)
Definition is_false (v : Value) : bool :=
  match v with VBool false => true | _ => false end.

(** [if (handler)] *)
Definition truthy_held (held : Held) : bool :=
  match held with
  | Callable _ => true
  | Other v => truthy v
  end.

(** [Message.unknown(`Unknown route '${request.name}'`)] *)
Definition unknown_route (request : Message.Request) : Value :=
  VResponse
    (Message.unknown (VStr ("Unknown route '" ++ Message.name request ++ "'")) VUndefined).

(** [route(request, port)].  A call that returns no value returns
    [undefined]. *)
Definition route (h : Heap) (this : Endpoint) (request : Message.Request) (port : Value)
  : M World Value :=
  let request := normalize request in
  match _findRoute h this request with
  | Thr err => throw err
  | Ret (Some handler) =>
      if truthy_held handler then
        let args := _buildArguments request port in
        (response <- _routeCall handler args;;
         if is_false (Message.silent request) then ret response
         else ret VUndefined)%eff
      else ret (unknown_route request)
  | Ret None => ret (unknown_route request)
  end.

(** A request that [this] resolves through one of its pipes: [routes]
    holds nothing under its name, and a plain pipe or a pattern has it. *)
Definition piped (this : Endpoint) (request : Message.Request) : Prop :=
  routes_get this (Message.name request) = Ret (Other VUndefined)
  /\ (Some (Message.name request) ∈ pipes_plain this
      \/ exists regexp, Some regexp ∈ pipes_regexp this
                        /\ test regexp (Message.name request) = true).

End Router.

Abbreviation Heap := (gmap nat Endpoint).

End Endpoint.

(** ** The request/response transport adapters

    A deferred result, as its caller observes it. *)

Inductive Deferred : Type :=
| Pending
| Resolved (v : Value)
| Rejected (v : Value)
| Returned (handle : nat).

(** How a promise of the browser settles. *)
Inductive Settlement : Type :=
| Fulfills (v : Value)
| Rejects (v : Value)
| NeverSettles.


Module BackgroundListener.
Section Listener.

Context {World : Type} {conversion : Conversion} {engine : Endpoint.Engine (World := World)}.
Variable ToNumber : Value -> option Z.

(** The executor of [new Promise((resolve, reject) => ...)] in
    [handleRequest]; an exception thrown by an executor rejects the promise
    with it. *)
Definition executor (response : Value) : Deferred :=
  if is_nullish response then Rejected (TypeError_read "code")
  else if loose_eq_num ToNumber (get response "code") 200 then Resolved response
  else Rejected (VResponse
                   (Message.error (get response "message") (get response "type") VUndefined)).

(** [handleRequest(message, port)]: [super.route] runs with the listener
    as [this]. *)
Definition handleRequest (h : Endpoint.Heap) (this : Endpoint.Endpoint)
    (message : Message.Request) (port : Value) : M World Deferred :=
  (response <- Endpoint.route h this message port;;
   match response with
   | VPromise handle => ret (Returned handle)
   | _ => ret (executor response)
   end)%eff.

End Listener.
End BackgroundListener.

Module NativeHostClient.
Section Client.

Context {World : Type}.
Variable ToNumber : Value -> option Z.

Definition COMPANION_HOST : string := "nmindcompanionhost".

(** [browser.runtime.sendNativeMessage(host, request)]: the exchange with
    the native host, and how the promise it returns settles. *)
Variable sendNativeMessage : string -> Message.Request -> World -> Settlement * World.

(** The fulfilment callback given to [then].  An exception thrown inside it
    rejects the promise that [then] returns, which nobody holds: the outer
    promise is then never settled. *)
Definition on_response (response : Value) : Deferred :=
  if is_nullish response then Pending
  else if loose_eq_num ToNumber (get response "code") 200 then Resolved response
  else Rejected (VResponse
                   (Message.error (get response "message") (get response "type") VUndefined)).

(** The rejection callback given to [then]. *)
Definition on_error (error : Value) : Deferred :=
  Rejected (VResponse (Message.error error VUndefined VUndefined)).

(** [let request = Message.request(route, params);
    request.async = async || false] *)
Definition build_request (route : string) (params async : Value) : Message.Request :=
  let request := Message.request route params in
  {| Message.name := Message.name request;
     Message.params := Message.params request;
     Message.id := Message.id request;
     Message.delay := Message.delay request;
     Message.async := or_else async (VBool false);
     Message.silent := Message.silent request |}.

(** [request(route, params, async)]: the promise returned, as it ends up. *)
Definition request (route : string) (params async : Value) : World -> Deferred * World :=
  fun w =>
    let request := build_request route params async in
    let '(settlement, w') := sendNativeMessage COMPANION_HOST request w in
    (match settlement with
     | Fulfills response => on_response response
     | Rejects error => on_error error
     | NeverSettles => Pending
     end, w').

End Client.
End NativeHostClient.

(** ** DownloadService.ts

    The service is its registry of jobs; what it does to the browser and to
    its callers is recorded, in order, in a trace.  A job's [response] is
    the object that [createJob] also hands to its caller; the copy held by
    the registry is the one followed here.

    The message that [Logger.debug] is given is built before the call,
    whether or not it is written.  What the browser reports of a download
    (its id, its filename, an error) is set into these messages as the
    number or string it is.  The port is the caller's: reading
    [port.contextId] throws on a port that is [null] or [undefined], and
    setting it into the message converts it to a string. *)

Module DownloadService.

(** [class DownloadJobResponse] *)
Record DownloadJobResponse : Type := {
  id : Value;
  name : Value;
  destination : Value;
  reason : Value;
  success : bool;
  downloading : bool;
}.

Definition new_DownloadJobResponse : DownloadJobResponse :=
  {| id := VNum 0; name := VStr ""; destination := VStr ""; reason := VStr "";
     success := false; downloading := false |}.

(** [onFinish(port, response)]: a function of the caller, which returns or
    throws. *)
Definition Callback : Type := Value -> DownloadJobResponse -> Result unit.

(** An entry of [jobs]; [None] is [null]. *)
Record Job : Type := {
  job_port : Value;
  job_response : option DownloadJobResponse;
  job_onFinish : option Callback;
  job_id : Z;
  job_filename : Value;
  job_fileSize : Value;
  job_totalBytes : Value;
  job_exists : Value;
}.

Inductive Event : Type :=
| CallOnFinish (port : Value) (response : DownloadJobResponse)
| CallRemoveFile (id : Z)
| CallErase (id : Z).

Record Service : Type := {
  dirDownloads : option string;
  jobs : gmap Z Job;
  trace : list Event;
}.

Definition new_DownloadService : Service :=
  {| dirDownloads := None; jobs := ∅; trace := [] |}.

Definition set_jobs (f : gmap Z Job -> gmap Z Job) (s : Service) : Service :=
  {| dirDownloads := dirDownloads s; jobs := f (jobs s); trace := trace s |}.

Definition emit (ev : Event) : M Service unit :=
  fun s => (Ret tt, {| dirDownloads := dirDownloads s; jobs := jobs s;
                        trace := (trace s ++ [ev])%list |}).

Definition TypeError_write (k : string) : Value :=
  VError "TypeError" ("Cannot set properties of undefined (setting '" ++ k ++ "')").

Definition TypeError_write_null (k : string) : Value :=
  VError "TypeError" ("Cannot set properties of null (setting '" ++ k ++ "')").

(** [this.jobs[id]], for the statements that read or write a property of
    it: a [TypeError] when the entry is gone. *)
Definition the_job (id : Z) (k : string) (write : bool) : M Service Job :=
  fun s =>
    match jobs s !! id with
    | Some j => (Ret j, s)
    | None => (Thr (if write then TypeError_write k else TypeError_read k), s)
    end.

(** [this.jobs[id].k = v], as an update [f] of the entry. *)
Definition update_job (id : Z) (k : string) (f : Job -> Job) : M Service unit :=
  (j <- the_job id k true;;
   fun s => (Ret tt, set_jobs (insert id (f j)) s))%eff.

Definition with_response (f : DownloadJobResponse -> DownloadJobResponse) (j : Job) : Job :=
  {| job_port := job_port j; job_response := f <$> job_response j;
     job_onFinish := job_onFinish j; job_id := job_id j;
     job_filename := job_filename j; job_fileSize := job_fileSize j;
     job_totalBytes := job_totalBytes j; job_exists := job_exists j |}.

Definition with_filename (v : Value) (j : Job) : Job :=
  {| job_port := job_port j; job_response := job_response j;
     job_onFinish := job_onFinish j; job_id := job_id j;
     job_filename := v; job_fileSize := job_fileSize j;
     job_totalBytes := job_totalBytes j; job_exists := job_exists j |}.

Definition with_fileSize (v : Value) (j : Job) : Job :=
  {| job_port := job_port j; job_response := job_response j;
     job_onFinish := job_onFinish j; job_id := job_id j;
     job_filename := job_filename j; job_fileSize := v;
     job_totalBytes := job_totalBytes j; job_exists := job_exists j |}.

Definition with_totalBytes (v : Value) (j : Job) : Job :=
  {| job_port := job_port j; job_response := job_response j;
     job_onFinish := job_onFinish j; job_id := job_id j;
     job_filename := job_filename j; job_fileSize := job_fileSize j;
     job_totalBytes := v; job_exists := job_exists j |}.

Definition with_exists (v : Value) (j : Job) : Job :=
  {| job_port := job_port j; job_response := job_response j;
     job_onFinish := job_onFinish j; job_id := job_id j;
     job_filename := job_filename j; job_fileSize := job_fileSize j;
     job_totalBytes := job_totalBytes j; job_exists := v |}.

Definition set_destination (v : Value) (r : DownloadJobResponse) : DownloadJobResponse :=
  {| id := id r; name := name r; destination := v; reason := reason r;
     success := success r; downloading := downloading r |}.

(** [this.jobs[id].response.destination = v]: a [TypeError] on a
    response that is [null], as [_onCreatedListener] makes it. *)
Definition write_destination (id : Z) (v : Value) : M Service unit :=
  (j <- the_job id "response" false;;
   match job_response j with
   | Some _ => update_job id "response" (with_response (set_destination v))
   | None => throw (TypeError_write_null "destination")
   end)%eff.

(** An item of [downloads.onCreated]. *)
Record DownloadItem : Type := {
  item_id : Z;
  item_filename : Value;
  item_fileSize : Value;
  item_totalBytes : Value;
}.

(** [_onCreatedListener(item)] *)
Definition _onCreatedListener (item : DownloadItem) : M Service unit :=
  fun s =>
    match jobs s !! item_id item with
    | Some _ =>
        (_ <- update_job (item_id item) "filename" (with_filename (item_filename item));;
         _ <- update_job (item_id item) "fileSize" (with_fileSize (item_fileSize item));;
         _ <- update_job (item_id item) "totalBytes" (with_totalBytes (item_totalBytes item));;
         write_destination (item_id item) (item_filename item))%eff s
    | None =>
        (Ret tt,
         set_jobs (insert (item_id item)
                     {| job_port := VNull; job_response := None; job_onFinish := None;
                        job_id := item_id item; job_filename := item_filename item;
                        job_fileSize := item_fileSize item;
                        job_totalBytes := item_totalBytes item;
                        job_exists := VUndefined |}) s)
    end.



(** [_notifyDownloadJob(id, success, reason)]; a [reason] left out is
    [undefined]. *)
Definition _notifyDownloadJob (id : Z) (success : bool) (reason : Value) : M Service bool :=
  (j <- the_job id "response" false;;
   match job_response j, job_onFinish j with
   | Some r, Some onFinish =>
       let r' :=
         {| DownloadService.id := DownloadService.id r; name := name r;
            destination := job_filename j; reason := or_else reason (VStr "");
            success := success; downloading := false |} in
       _ <- update_job id "response" (with_response (fun _ => r'));;
       _ <- emit (CallOnFinish (job_port j) r');;
       match onFinish (job_port j) r' with
       | Ret _ => ret true
       | Thr e => throw e
       end
   | _, _ => ret false
   end)%eff.

(** [_cleanupJob(id, removeFile)] *)
Definition _cleanupJob (id : Z) (removeFile : bool) : M Service unit :=
  (_ <- (fun s => (Ret tt, set_jobs (delete id) s));;
   if removeFile then
     _ <- emit (CallRemoveFile id);;
     emit (CallErase id)
   else ret tt)%eff.

(** A delta of [downloads.onChanged].  Each field is absent ([None]) or an
    object whose [current] is given. *)
Record Delta : Type := {
  delta_id : Z;
  delta_error : option Value;
  delta_filename : option Value;
  delta_fileSize : option Value;
  delta_totalBytes : option Value;
  delta_exists : option Value;
  delta_state : option Value;
}.

(** [if (field) { body }] on an optional field of the delta. *)
Definition when_present {A : Type} (field : option A) (body : A -> M Service unit)
  : M Service unit :=
  match field with
  | Some current => body current
  | None => ret tt
  end.

Section Listener.

Variable ToNumber : Value -> option Z.

(** [_onChangedListener(delta)] *)
Definition _onChangedListener (delta : Delta) : M Service unit :=
  fun s =>
    match jobs s !! delta_id delta with
    | None => (Ret tt, s)
    | Some _ =>
        (_ <- when_present (delta_error delta) (fun current =>
                _ <- _notifyDownloadJob (delta_id delta) false current;;
                _cleanupJob (delta_id delta) true);;
         _ <- when_present (delta_filename delta) (fun current =>
                _ <- update_job (delta_id delta) "filename" (with_filename current);;
                write_destination (delta_id delta) current);;
         _ <- when_present (delta_fileSize delta) (fun current =>
                update_job (delta_id delta) "fileSize" (with_fileSize current));;
         _ <- when_present (delta_totalBytes delta) (fun current =>
                update_job (delta_id delta) "totalBytes" (with_totalBytes current));;
         _ <- when_present (delta_exists delta) (fun current =>
                update_job (delta_id delta) "exists" (with_exists current));;
         when_present (delta_state delta) (fun current =>
           match current with
           | VStr "complete" =>
               j <- the_job (delta_id delta) "fileSize" false;;
               if loose_eq_num ToNumber (job_fileSize j) 0 then
                 _ <- _notifyDownloadJob (delta_id delta) false (VStr "Empty content");;
                 _cleanupJob (delta_id delta) true
               else
                 _ <- _notifyDownloadJob (delta_id delta) true VUndefined;;
                 _cleanupJob (delta_id delta) false
           | _ => ret tt
           end))%eff s
    end.

End Listener.

(** The service [s] with [j] as the entry of [id]. *)
Definition with_job (id : Z) (j : Job) (s : Service) : Service :=
  set_jobs (insert id j) s.

(** The response handed to [onFinish] for the job [j]. *)
Definition notified (j : Job) (r : DownloadJobResponse) (success : bool) (reason : Value)
  : DownloadJobResponse :=
  {| id := id r; name := name r; destination := job_filename j;
     reason := or_else reason (VStr ""); success := success; downloading := false |}.

(** The service [s] with further calls recorded. *)
Definition add_trace (evs : list Event) (s : Service) : Service :=
  {| dirDownloads := dirDownloads s; jobs := jobs s; trace := (trace s ++ evs)%list |}.

(** The entry of a job once the listener has copied into it what the delta
    brings. *)
Definition refreshed (delta : Delta) (j : Job) : Job :=
  let j :=
    match delta_filename delta with
    | Some current => with_response (set_destination current) (with_filename current j)
    | None => j
    end in
  let j := match delta_fileSize delta with Some current => with_fileSize current j | None => j end in
  let j := match delta_totalBytes delta with Some current => with_totalBytes current j | None => j end in
  match delta_exists delta with Some current => with_exists current j | None => j end.

End DownloadService.

(** ** PrinterService.ts

    As for the download service: the registry, and a trace of the calls
    made to the native host client and to the callers' callbacks; and the
    message for [Logger.debug], built out of the job and the port that the
    caller passes.

    The registry is a plain object keyed by the filenames of the jobs, and
    is given here by its own properties.  Under a filename that is the name
    of something every object inherits ([is_inherited]) the object is read
    and written through its prototype chain: such filenames are left out
    of what is stated of the registry further down. *)

Module PrinterService.

(** A job as the registry stores it, once [onFinish] has been taken off. *)
Record StoredJob : Type := {
  stored_filename : string;
  stored_printerName : Value;
  stored_success : Value;
  stored_reason : Value;
  stored_extra : list (string * Value);
}.

(** [onFinish(port, job)] *)
Definition Callback : Type := Value -> StoredJob -> Result unit.

(** The argument of [createJob] ([PrintJobLike]); the other keys of the
    object are in [extra]. *)
Record PrintJobLike : Type := {
  filename : string;
  printerName : Value;
  onFinish : option Callback;
  success : Value;
  reason : Value;
  extra : list (string * Value);
}.

Inductive Event : Type :=
| CallRequest (route : string) (params : Value)
| CallOnFinish (port : Value) (job : StoredJob).

(** [hostClient] is [null] ([false]) or a client; a call to its [request]
    is recorded in the trace. *)
Record Service : Type := {
  dirPrinters : option string;
  hostClient : bool;
  jobs : gmap string StoredJob;
  trace : list Event;
}.

Definition new_PrinterService : Service :=
  {| dirPrinters := None; hostClient := false; jobs := ∅; trace := [] |}.

Definition configure (dirPrinters : string) (s : Service) : Service :=
  {| dirPrinters := Some dirPrinters; hostClient := true; jobs := jobs s; trace := trace s |}.

Definition set_jobs (f : gmap string StoredJob -> gmap string StoredJob) (s : Service)
  : Service :=
  {| dirPrinters := dirPrinters s; hostClient := hostClient s; jobs := f (jobs s);
     trace := trace s |}.

Definition emit (ev : Event) : M Service unit :=
  fun s => (Ret tt, {| dirPrinters := dirPrinters s; hostClient := hostClient s;
                        jobs := jobs s; trace := (trace s ++ [ev])%list |}).

(** [delete job.onFinish; this.jobs[id] = job] *)
Definition store (job : PrintJobLike) : StoredJob :=
  {| stored_filename := filename job; stored_printerName := printerName job;
     stored_success := success job; stored_reason := reason job;
     stored_extra := extra job |}.

Definition TypeError_write (k : string) : Value :=
  VError "TypeError" ("Cannot set properties of undefined (setting '" ++ k ++ "')").

(** [this.jobs[id].success = ...; this.jobs[id].reason = ...;
    if (onFinish) onFinish(port, this.jobs[id]); delete this.jobs[id]],
    the end of a job in each of the three places that have it; [reason] is
    [None] where no reason is assigned. *)
Definition finish (id : string) (port : Value) (onFinish : option Callback)
    (success : bool) (reason : option Value) : M Service unit :=
  fun s =>
    match jobs s !! id with
    | None => (Thr (TypeError_write "success"), s)
    | Some j =>
        let j' :=
          {| stored_filename := stored_filename j;
             stored_printerName := stored_printerName j;
             stored_success := VBool success;
             stored_reason := default (stored_reason j) reason;
             stored_extra := stored_extra j |} in
        (_ <- (fun s => (Ret tt, set_jobs (insert id j') s));;
         _ <- match onFinish with
              | Some cb =>
                  _ <- emit (CallOnFinish port j');;
                  match cb port j' with
                  | Ret _ => ret tt
                  | Thr e => throw e
                  end
              | None => ret tt
              end;;
         fun s => (Ret tt, set_jobs (delete id) s))%eff s
    end.

(** The message [`New printjob ${id} created for ${job.filename} to
    ${job.printerName} by ${port.contextId}`], built from left to right:
    the filename is a string; the printer's name is converted to one; then
    [port.contextId] is read, which throws on a port that is [null] or
    [undefined], and converted. *)
Definition created_message {conversion : Conversion} (port : Value) (job : PrintJobLike)
  : Result unit :=
  match String_throws (printerName job) with
  | Some raised => Thr raised
  | None =>
      if is_nullish port then Thr (TypeError_read_of port "contextId")
      else
        match String_throws (get port "contextId") with
        | Some raised => Thr raised
        | None => Ret tt
        end
  end.

(** [createJob(port, job)], up to its return; it returns no value.  With a
    host client, the job stays in the registry until the promise of
    [request] settles. *)
Definition createJob {conversion : Conversion} (port : Value) (job : PrintJobLike)
  : M Service Value :=
  if negb (truthy (printerName job)) then ret VUndefined
  else
    match created_message port job with
    | Thr raised => throw raised
    | Ret _ =>
        let id := filename job in
        (_ <- (fun s => (Ret tt, set_jobs (insert id (store job)) s));;
         fun s =>
           if negb (hostClient s) then
             (_ <- finish id port (onFinish job) false
                     (Some (VStr "PrinterService not configured (hostClient is null)"));;
              ret VUndefined) s
           else
             (_ <- emit (CallRequest "companion.document.print"
                           (VObj [("printerName", printerName job);
                                  ("path", VStr (filename job))]));;
              ret VUndefined) s)%eff
    end.


End PrinterService.

(** ** Pipes as lists

    What [pipe] registers and how often a name is piped: the vocabulary in
    which the behaviour of [pipe] and [unpipe] is stated further down. *)

Module Pipes.
Import Endpoint.


(** The number of entries of a list of plain pipes that hold [name]. *)
Definition occurrences (name : string) (l : list (option string)) : nat :=
  length (List.filter
            (fun slot => match slot with Some s => String.eqb s name | None => false end) l).

(** The strings, and the patterns, among the arguments of a call to [pipe]
    that come before the first argument that is neither. *)
Fixpoint plain_slots (rs : list PipeArg) : list (option string) :=
  match rs with
  | [] => []
  | PString s :: rest => Some s :: plain_slots rest
  | PRegExp _ :: rest => plain_slots rest
  | POther :: _ => []
  end.

Fixpoint regexp_slots (rs : list PipeArg) : list (option RegExp) :=
  match rs with
  | [] => []
  | PString _ :: rest => regexp_slots rest
  | PRegExp r :: rest => Some r :: regexp_slots rest
  | POther :: _ => []
  end.

End Pipes.

(** ** nmind-misc.ts: the type guards, and [Request.check]

    [ensureType] is modelled for a target that is an object (on anything
    else it does nothing), given by its own properties and by the names of
    the methods it inherits: those of [Object.prototype] for a plain
    object, and those of its class as well for an instance of one. *)

Module Misc.

(** [typeof v] *)
Definition typeof (v : Value) : string :=
  match v with
  | VUndefined => "undefined"
  | VBool _ => "boolean"
  | VNum _ => "number"
  | VStr _ => "string"
  | _ => "object"
  end.

(** The own property of that name, if there is one. *)
Fixpoint own (property : string) (props : list (string * Value)) : option Value :=
  match props with
  | [] => None
  | (k, v) :: rest => if String.eqb property k then Some v else own property rest
  end.

Definition is_Some_b {A : Type} (o : option A) : bool :=
  match o with Some _ => true | None => false end.

(** [typeof obj[property]]: an own property; failing that an inherited
    method; failing that the getter of [__proto__], which gives the
    prototype; and [undefined] otherwise. *)
Definition typeof_property (methods : list string) (props : list (string * Value))
    (property : string) : string :=
  match own property props with
  | Some v => typeof v
  | None =>
      if existsb (String.eqb property) methods then "function"
      else if String.eqb property "__proto__" then "object"
      else "undefined"
  end.

(** The own properties once [property] has been given [value]: the
    property is overwritten where it is, or added after the others. *)
Fixpoint assign (property : string) (value : Value) (props : list (string * Value))
  : list (string * Value) :=
  match props with
  | [] => [(property, value)]
  | (k, v) :: rest =>
      if String.eqb property k then (k, value) :: rest
      else (k, v) :: assign property value rest
  end.

(** Whether [obj[property]] is the accessor [__proto__] of
    [Object.prototype]: the name is that one, and neither an own property
    nor an inherited method hides it. *)
Definition is_proto_accessor (methods : list string) (props : list (string * Value))
    (property : string) : bool :=
  String.eqb property "__proto__"
  && negb (is_Some_b (own property props))
  && negb (existsb (String.eqb property) methods).

(** [obj[property] = value], as it leaves the own properties.  An
    inherited method is shadowed by a new own property.  An assignment
    that goes to the setter of [__proto__] creates none (it replaces the
    prototype when [value] is an object or [null], and does nothing
    otherwise). *)
Definition set (methods : list string) (props : list (string * Value)) (property : string)
    (value : Value) : list (string * Value) :=
  if is_proto_accessor methods props property then props
  else assign property value props.

(** [ensureType(target, property, expected, value)], on the own properties
    of a target that inherits [methods]. *)
Definition ensureType (methods : list string) (props : list (string * Value))
    (property expected : string) (value : Value) : list (string * Value) :=
  if negb (String.eqb (typeof_property methods props property) expected)
  then set methods props property value
  else props.

Definition typeOfString (methods : list string) (props : list (string * Value))
    (property : string) (value : string) : list (string * Value) :=
  ensureType methods props property "string" (VStr value).

Definition typeOfNumber (methods : list string) (props : list (string * Value))
    (property : string) (value : Z) : list (string * Value) :=
  ensureType methods props property "number" (VNum value).

Definition typeOfBoolean (methods : list string) (props : list (string * Value))
    (property : string) (value : bool) : list (string * Value) :=
  ensureType methods props property "boolean" (VBool value).

(** What an instance of [Request] inherits: the method of its class, and
    the functions of [Object.prototype]. *)
Definition Request_methods : list string := "check" :: Object_prototype_functions.

(** A request as the object it is, and back. *)
Definition props_of_request (r : Message.Request) : list (string * Value) :=
  [("name", VStr (Message.name r)); ("params", Message.params r); ("id", Message.id r);
   ("delay", Message.delay r); ("async", Message.async r); ("silent", Message.silent r)].

Definition request_of_props (name : string) (props : list (string * Value))
  : Message.Request :=
  {| Message.name := name; Message.params := assoc "params" props;
     Message.id := assoc "id" props; Message.delay := assoc "delay" props;
     Message.async := assoc "async" props; Message.silent := assoc "silent" props |}.

(** [Request.check()] *)
Definition check (r : Message.Request) : Message.Request :=
  let this := props_of_request r in
  let this := typeOfNumber Request_methods this "delay" 0 in
  let this := typeOfBoolean Request_methods this "async" false in
  let this := typeOfBoolean Request_methods this "silent" false in
  let this := typeOfString Request_methods this "id" "-1" in
  request_of_props (Message.name r) this.

End Misc.

(** ** DownloadService.ts: submitting a job

    A job handed to [createJob] is an object with a [filename], possibly an
    [onFinish] callback, and other properties ([id], [name], [url],
    [headers], ...), held in [others] under their keys.  The order of the
    properties of an object carries no meaning. *)

Module Downloads.
Import DownloadService.

Record DownloadJobLike : Type := {
  filename : string;
  onFinish : option Callback;
  others : list (string * Value);
}.

(** [configure(dirDownloads)] *)
Definition configure (dir : string) (s : Service) : Service :=
  {| dirDownloads := Some dir; jobs := jobs s; trace := trace s |}.

Definition allowed : list string :=
  ["body"; "conflictAction"; "filename"; "headers"; "incognito"; "method"; "saveAs"; "url"].

(** [allowed.includes(key)] *)
Definition is_allowed (key : string) : bool := existsb (String.eqb key) allowed.

(** [_sanitizeJobProperties(job)], on the data properties of the job. *)
Definition _sanitizeJobProperties (job : list (string * Value)) : list (string * Value) :=
  List.filter (fun entry => is_allowed (fst entry)) job.

(** [_createReponse(job)] *)
Definition _createReponse (job : DownloadJobLike) : DownloadJobResponse :=
  let response := new_DownloadJobResponse in
  {| id := assoc "id" (others job); name := assoc "name" (others job);
     destination := destination response; reason := reason response;
     success := success response; downloading := downloading response |}.

(** What [createJob] does before the browser answers: it refuses, with the
    value the promise is rejected with, or asks the browser for a download
    with the sanitized job, keeping the response and the callback for the
    answer. *)
Inductive Submission : Type :=
| Refused (rejection : Value)
| Requested (options : list (string * Value)) (response : DownloadJobResponse)
    (onFinish : option Callback).

(** [createJob(port, job)], up to the call of [browser.downloads.download];
    an empty [dirDownloads] is as falsy as [null]. *)
Definition createJob (s : Service) (job : DownloadJobLike) : Submission :=
  let not_configured :=
    Refused (VObj [("code", VNum 500);
                   ("message",
                    VStr "DownloadService not configured (dirDownloads is null)")]) in
  match dirDownloads s with
  | None => not_configured
  | Some dir =>
      if String.eqb dir "" then not_configured
      else
        let job' :=
          {| filename := dir ++ filename job; onFinish := onFinish job;
             others := others job |} in
        Requested
          (_sanitizeJobProperties (("filename", VStr (filename job')) :: others job'))
          (_createReponse job') (onFinish job')
  end.

(** The rejection callback of [createJob]: the response the promise is
    rejected with. *)
Definition createJob_failed (response : DownloadJobResponse) (error : Value)
  : DownloadJobResponse :=
  {| id := id response; name := name response; destination := destination response;
     reason := error; success := false; downloading := false |}.

(** The delta of [onChanged] that reports a state and nothing else. *)
Definition state_only (id : Z) (state : Value) : Delta :=
  {| delta_id := id; delta_error := None; delta_filename := None;
     delta_fileSize := None; delta_totalBytes := None; delta_exists := None;
     delta_state := Some state |}.

(** The call that tells the caller of the job [j] how it ended, for a job
    that has a response and a callback; no call otherwise. *)
Definition notice (j : Job) (success : bool) (reason : Value) : list Event :=
  match job_response j, job_onFinish j with
  | Some r, Some _ => [CallOnFinish (job_port j) (notified j r success reason)]
  | _, _ => []
  end.

(** That call, if there is one, returns. *)
Definition callback_returns (j : Job) (success : bool) (reason : Value) : Prop :=
  match job_response j, job_onFinish j with
  | Some r, Some onFinish => onFinish (job_port j) (notified j r success reason) = Ret tt
  | _, _ => True
  end.

(** The two calls that remove the file of a download and its entry in the
    history. *)
Definition removal (id : Z) : list Event := [CallRemoveFile id; CallErase id].

(** The service once the job [id] has ended with the calls [evs]. *)
Definition ended (id : Z) (evs : list Event) (s : Service) : Service :=
  {| dirDownloads := dirDownloads s; jobs := delete id (jobs s);
     trace := (trace s ++ evs)%list |}.

(** [state.current === "complete"] *)
Definition is_complete (state : Value) : bool :=
  match state with VStr s => String.eqb s "complete" | _ => false end.


End Downloads.

(** ** PrinterService.ts: the vocabulary of its properties *)

Module Printing.
Import PrinterService.


(** The call that tells the caller, if the job came with a callback. *)
Definition notice (port : Value) (onFinish : option Callback) (told : StoredJob)
  : list Event :=
  match onFinish with
  | Some _ => [CallOnFinish port told]
  | None => []
  end.

(** That call, if there is one, returns. *)
Definition callback_returns (port : Value) (onFinish : option Callback) (told : StoredJob)
  : Prop :=
  match onFinish with
  | Some cb => cb port told = Ret tt
  | None => True
  end.


(** The service once the job [id] has ended with the calls [evs]. *)
Definition ended (id : string) (evs : list Event) (s : Service) : Service :=
  {| dirPrinters := dirPrinters s; hostClient := hostClient s;
     jobs := delete id (jobs s); trace := (trace s ++ evs)%list |}.


End Printing.

(** ** NativeHostClient: the connection to the native host

    The client holds a port or [null].  The browser gives each call of
    [connectNative] a new port, numbered here, and the calls made to the
    browser and to the ports are recorded in order. *)

Module NativeHostPort.

Inductive Call : Type :=
| ConnectNative (host : string) (port : nat)
| PortDisconnect (port : nat)
| PostMessage (port : nat) (request : Message.Request).

(** The client ([port]) and the browser beside it. *)
Record State : Type := {
  port : option nat;
  opened : nat;
  calls : list Call;
}.

Definition new_NativeHostClient : State := {| port := None; opened := 0; calls := [] |}.

(** [isConnected()] *)
Definition isConnected (s : State) : bool :=
  match port s with Some _ => true | None => false end.

(** [connect()]; the two listeners are attached to the new port. *)
Definition connect (s : State) : bool * State :=
  let s :=
    if negb (isConnected s) then
      {| port := Some (opened s); opened := S (opened s);
         calls := (calls s ++ [ConnectNative NativeHostClient.COMPANION_HOST (opened s)])%list |}
    else s in
  (isConnected s, s).

(** [disconnect()] *)
Definition disconnect (s : State) : bool * State :=
  let s :=
    match port s with
    | Some p =>
        {| port := None; opened := opened s;
           calls := (calls s ++ [PortDisconnect p])%list |}
    | None => s
    end in
  (negb (isConnected s), s).

(** [handleDisconnect(port)], the listener of [port.onDisconnect]. *)
Definition handleDisconnect (s : State) : State :=
  {| port := None; opened := opened s; calls := calls s |}.

(** [post(route, params, async)]: [this.port?.postMessage(request)]. *)
Definition post (route : string) (params async : Value) (s : State) : State :=
  let request := NativeHostClient.build_request route params async in
  match port s with
  | Some p =>
      {| port := port s; opened := opened s;
         calls := (calls s ++ [PostMessage p request])%list |}
  | None => s
  end.

End NativeHostPort.

(** ** A scenario

    A world that counts the calls made into it, a few handlers and
    endpoints, a download under way: the concrete setting in which the
    properties below are put to work. *)

Module Scenario.
Import Endpoint.

(** The objects of the scenario all convert to strings.  Its endpoints
    call no inherited function but [toString] and make no function the
    prototype of [routes]: what the engine would answer there is not called
    for, and is given the plainest value. *)
#[export] Instance conversion : Conversion :=
  {| ToString_throws := fun _ => None |}.

#[export] Instance engine : Engine (World := nat) :=
  {| builtin := fun _ _ => ret VUndefined;
     function_get := fun _ _ => Ret (Other VUndefined);
     function_set := fun _ _ => Creates |}.

(** A handler that leaves a mark in the world and ends with [result]. *)
Definition counting (result : Result Value) : Handler (World := nat) :=
  fun _ w => (result, S w).

Definition registry : gmap string (Handler (World := nat)) :=
  <["ping" := counting (Ret (VStr "pong"))]>
    (<["refuse" := counting (Ret (VResponse (Message.failure (VStr "x") VUndefined VUndefined)))]>
       (<["fail" := counting (Thr (VError "Error" "boom"))]>
          (<["fail.text" := counting (Thr (VStr "boom"))]> ∅))).

Definition any_name : RegExp := {| uid := 0; test := fun _ => true |}.
Definition no_name : RegExp := {| uid := 1; test := fun _ => false |}.

(** An endpoint with four routes, a plain pipe and two patterns. *)
Definition router : Endpoint (World := nat) :=
  pipe (set_routes (fun _ => registry) new_Endpoint)
    [PString "ping"; PString "relay"; PRegExp no_name; PRegExp any_name].

(** An endpoint as the constructor leaves it; the same with ["toString"]
    piped; and one whose only route returns a promise. *)
Definition bare : Endpoint (World := nat) := new_Endpoint.

Definition stringly : Endpoint (World := nat) := pipe new_Endpoint [PString "toString"].


(** Objects among which the one without properties, made by
    [Object.create(null)], has no method to convert it to a string; and an
    endpoint whose only route throws that object. *)
Definition bare_objects : Conversion :=
  {| ToString_throws := fun v =>
       match v with
       | VObj [] => Some (VError "TypeError" "Cannot convert object to primitive value")
       | _ => None
       end |}.

Definition throwing_bare : Endpoint (World := nat) :=
  set_routes (insert "bad" (counting (Thr (VObj [])))) new_Endpoint.

(** A bare endpoint with one plain pipe, and a client-like endpoint whose
    [request] answers with the route it is given. *)
Definition left : Endpoint (World := nat) := pipe new_Endpoint [PString "relay"].

Definition right : Endpoint (World := nat) :=
  {| cls := ClsEndpoint; routes := ∅; routes_proto := ObjectPrototype;
     pipes_plain := [Some "back"]; pipes_regexp := [];
     forwarder := FwObject None None;
     request := Some (fun route _ w => (Ret (VStr route), S w));
     post := None |}.

Definition heap : gmap nat (Endpoint (World := nat)) := <[0%nat := left]> (<[1%nat := right]> ∅).

(** [left] and [right] joined, then [left.forwarder = {}]. *)
Definition heap_unjoined : gmap nat (Endpoint (World := nat)) :=
  alter (set_forwarder (FwObject None None)) 0%nat (join heap 0%nat 1%nat).

Definition left_unjoined : Endpoint (World := nat) :=
  set_forwarder (FwObject None None) (set_forwarder (FwEndpoint 1) left).

Definition silently (request : Message.Request) : Message.Request :=
  {| Message.name := Message.name request; Message.params := Message.params request;
     Message.id := Message.id request; Message.delay := Message.delay request;
     Message.async := Message.async request; Message.silent := VBool true |}.

(** No coercion of strings and objects to numbers is needed below, but
    that of the string ["200"]. *)
Definition no_number : Value -> option Z := fun _ => None.



(** A download that [createJob] started for a caller on port [tab-1];
    [onCreated] then reported [fileSize] bytes under [report.pdf]. *)
Definition started : DownloadService.DownloadJobResponse :=
  {| DownloadService.id := VUndefined; DownloadService.name := VStr "report";
     DownloadService.destination := VStr "report.pdf";
     DownloadService.reason := VStr "";
     DownloadService.success := false; DownloadService.downloading := true |}.

Definition tracked (fileSize : Z) : DownloadService.Job :=
  {| DownloadService.job_port := VObj [("contextId", VStr "tab-1")];
     DownloadService.job_response := Some started;
     DownloadService.job_onFinish := Some (fun _ _ => Ret tt);
     DownloadService.job_id := 7;
     DownloadService.job_filename := VStr "report.pdf";
     DownloadService.job_fileSize := VNum fileSize;
     DownloadService.job_totalBytes := VNum fileSize;
     DownloadService.job_exists := VUndefined |}.

Definition downloading (fileSize : Z) : DownloadService.Service :=
  {| DownloadService.dirDownloads := Some "nmind/";
     DownloadService.jobs := {[ 7 := tracked fileSize ]};
     DownloadService.trace := [] |}.

(** The delta of [onChanged] that only reports the state ["complete"]. *)
Definition completed : DownloadService.Delta :=
  {| DownloadService.delta_id := 7;
     DownloadService.delta_error := None; DownloadService.delta_filename := None;
     DownloadService.delta_fileSize := None; DownloadService.delta_totalBytes := None;
     DownloadService.delta_exists := None;
     DownloadService.delta_state := Some (VStr "complete") |}.

Definition finished (success : bool) (reason : string) : DownloadService.DownloadJobResponse :=
  {| DownloadService.id := VUndefined; DownloadService.name := VStr "report";
     DownloadService.destination := VStr "report.pdf";
     DownloadService.reason := VStr reason;
     DownloadService.success := success; DownloadService.downloading := false |}.

(** A request for ["ping"] from a sender that set every field. *)
Definition elaborate : Message.Request :=
  {| Message.name := "ping"; Message.params := VUndefined; Message.id := VStr "42";
     Message.delay := VNum 5000; Message.async := VBool true; Message.silent := VNum 0 |}.

(** [right], [left] and a second bare endpoint, by reference. *)
Definition heap3 : gmap nat (Endpoint (World := nat)) :=
  <[0%nat := right]> (<[1%nat := left]> (<[2%nat := new_Endpoint]> ∅)).

(** A native host that cannot be reached. *)
Definition unreachable : string -> Message.Request -> nat -> Settlement * nat :=
  fun _ _ w => (Rejects (VStr "host not found"), S w).



Definition progress : DownloadService.Delta :=
  {| DownloadService.delta_id := 7; DownloadService.delta_error := None;
     DownloadService.delta_filename := None;
     DownloadService.delta_fileSize := Some (VNum 4096);
     DownloadService.delta_totalBytes := None; DownloadService.delta_exists := None;
     DownloadService.delta_state := Some (VStr "in_progress") |}.

Definition renamed : DownloadService.Delta :=
  {| DownloadService.delta_id := 7; DownloadService.delta_error := None;
     DownloadService.delta_filename := Some (VStr "nmind/report (1).pdf");
     DownloadService.delta_fileSize := None;
     DownloadService.delta_totalBytes := None; DownloadService.delta_exists := None;
     DownloadService.delta_state := None |}.

(** A configured download service with nothing in flight, and what the
    browser reports of the download 7. *)
Definition idle : DownloadService.Service :=
  {| DownloadService.dirDownloads := Some "nmind/"; DownloadService.jobs := ∅;
     DownloadService.trace := [] |}.

Definition created (fileSize : Z) : DownloadService.DownloadItem :=
  {| DownloadService.item_id := 7;
     DownloadService.item_filename := VStr "nmind/report.pdf";
     DownloadService.item_fileSize := VNum fileSize;
     DownloadService.item_totalBytes := VNum fileSize |}.

Definition tab : Value := VObj [("contextId", VStr "tab-1")].

(** The download 7 as [onCreated] alone leaves it, with nobody to tell;
    the download 7 of a caller with the callback [onFinish]; a callback
    that throws; and the service that follows one job. *)
Definition untold (fileSize : Z) : DownloadService.Job :=
  {| DownloadService.job_port := VNull;
     DownloadService.job_response := None;
     DownloadService.job_onFinish := None;
     DownloadService.job_id := 7;
     DownloadService.job_filename := VStr "report.pdf";
     DownloadService.job_fileSize := VNum fileSize;
     DownloadService.job_totalBytes := VNum fileSize;
     DownloadService.job_exists := VUndefined |}.

Definition tracked_by (onFinish : DownloadService.Callback) (fileSize : Z)
  : DownloadService.Job :=
  {| DownloadService.job_port := tab;
     DownloadService.job_response := Some started;
     DownloadService.job_onFinish := Some onFinish;
     DownloadService.job_id := 7;
     DownloadService.job_filename := VStr "report.pdf";
     DownloadService.job_fileSize := VNum fileSize;
     DownloadService.job_totalBytes := VNum fileSize;
     DownloadService.job_exists := VUndefined |}.

Definition closed_tab : DownloadService.Callback :=
  fun _ _ => Thr (VError "Error" "tab closed").

Definition following (j : DownloadService.Job) : DownloadService.Service :=
  {| DownloadService.dirDownloads := Some "nmind/";
     DownloadService.jobs := {[ 7 := j ]};
     DownloadService.trace := [] |}.



End Scenario.

(** * Properties *)

(** ** Sequencing *)

Lemma bind_Ret {World A B : Type} (c : M World A) (k : A -> M World B) w a w' :
  c w = (Ret a, w') -> bind c k w = k a w'.
Proof. intros Hc. unfold bind. rewrite Hc. reflexivity. Qed.

(** ** Responses *)

Module MessageFacts.

Lemma code_success data name : code (Message.success data name) = 200.
Proof. reflexivity. Qed.

Lemma code_failure message type name : code (Message.failure message type name) = 403.
Proof. reflexivity. Qed.

Lemma code_unknown message name : code (Message.unknown message name) = 404.
Proof. reflexivity. Qed.


(** A payload that is not an object is stored as it is. *)
Lemma error_of_primitive err type name :
  typeof_object err = false ->
  Message.error err type name = ScriptError name (or_else type VNull) err.
Proof.
  intros Hobj. unfold Message.error, Message.new_ScriptError.
  rewrite Hobj. reflexivity.
Qed.

(** Whatever [type] the input object holds, the response's type comes from
    the [type] argument alone when the message is a non-empty string. *)
Lemma error_type_of_input_unused (props : list (string * Value)) (m : string)
    (type name : Value) :
  assoc "message" props = VStr m -> m <> "" ->
  Message.error (VObj props) type name = ScriptError name (or_else type VNull) (VStr m).
Proof.
  intros Hm Hne. unfold Message.error, Message.new_ScriptError. cbn.
  rewrite Hm. cbn. destruct (String.eqb_spec m "") as [Heq|_]; [contradiction|].
  reflexivity.
Qed.

(** C9, on the code.  For an input [{ message: "boom", type: "T" }] the
    response built by [Message.error] has message ["boom"] and type [null]:
    the constructor reads [type] off the message it has just unwrapped, so
    the input's type is lost. *)
Theorem error_loses_type_of_input :
  Message.error (VObj [("message", VStr "boom"); ("type", VStr "T")]) VUndefined VUndefined
  = ScriptError VUndefined VNull (VStr "boom").
Proof. reflexivity. Qed.

End MessageFacts.

(** ** The router *)

Module EndpointFacts.
Import Endpoint.

Section Router.

Context {World : Type} {conversion : Conversion} {engine : Engine (World := World)}.
Implicit Types (h : gmap nat (Endpoint (World := World))).
Implicit Types (this : Endpoint (World := World)).
Implicit Types (request : Message.Request) (w : World).

Lemma name_normalize request : Message.name (normalize request) = Message.name request.
Proof. reflexivity. Qed.

Lemma _findRoute_normalize h this request :
  _findRoute h this (normalize request) = _findRoute h this request.
Proof. reflexivity. Qed.

(** A flag that is falsy is [false] once normalized; one that is [true]
    stays [true]. *)
Lemma silent_normalize_falsy request :
  truthy (Message.silent request) = false ->
  Message.silent (normalize request) = VBool false.
Proof. intros Hs. cbn. unfold or_else. rewrite Hs. reflexivity. Qed.

Lemma includes_spec (l : list (option string)) (name : string) :
  includes l name = true <-> Some name ∈ l.
Proof.
  unfold includes. induction l as [|slot l IH]; cbn.
  - split; [discriminate | intros H; inversion H].
  - rewrite orb_true_iff, IH, elem_of_cons. destruct slot as [s|].
    + rewrite String.eqb_eq. split; (intros [H|H]; [left; congruence | right; exact H]).
    + split; (intros [H|H]; [discriminate | right; exact H]).
Qed.

Lemma includes_false (l : list (option string)) (name : string) :
  includes l name = false <-> Some name ∉ l.
Proof.
  rewrite <- includes_spec. destruct (includes l name); split; congruence.
Qed.

(** The loop over the patterns finds a pipe exactly when some pattern of
    the list accepts the name. *)
Lemma _findRoute_regexp_Some h this (l : list (option RegExp)) (name : string) :
  (exists regexp, Some regexp ∈ l /\ test regexp name = true) ->
  _findRoute_regexp h this l name = Some (_createPipe h this name).
Proof.
  induction l as [|slot l IH]; intros (regexp & Hin & Ht).
  - inversion Hin.
  - apply elem_of_cons in Hin. destruct slot as [r|]; cbn.
    + destruct (test r name) eqn:Hr; [reflexivity|].
      apply IH. exists regexp. destruct Hin as [Heq|Hin]; [congruence | auto].
    + apply IH. exists regexp. destruct Hin as [Heq|Hin]; [discriminate | auto].
Qed.

Lemma _findRoute_regexp_None h this (l : list (option RegExp)) (name : string) :
  (forall regexp, Some regexp ∈ l -> test regexp name = false) ->
  _findRoute_regexp h this l name = None.
Proof.
  induction l as [|slot l IH]; intros Hall; [reflexivity|].
  destruct slot as [r|]; cbn.
  - rewrite (Hall r) by (apply elem_of_cons; auto).
    apply IH. intros regexp Hin. apply Hall, elem_of_cons. auto.
  - apply IH. intros regexp Hin. apply Hall, elem_of_cons. auto.
Qed.

(** The patterns are tried from the front of the list: the loop stops at
    the first one that accepts the name, whatever follows it. *)
Lemma _findRoute_regexp_first h this (before after : list (option RegExp))
    (regexp : RegExp) (name : string) :
  (forall r, Some r ∈ before -> test r name = false) ->
  test regexp name = true ->
  _findRoute_regexp h this (before ++ Some regexp :: after)%list name
  = _findRoute_regexp h this [Some regexp] name.
Proof.
  intros Hbefore Ht. induction before as [|slot before IH]; cbn.
  - rewrite Ht. reflexivity.
  - destruct slot as [r|].
    + rewrite (Hbefore r) by (apply elem_of_cons; auto).
      apply IH. intros r' Hin. apply Hbefore, elem_of_cons. auto.
    + apply IH. intros r' Hin. apply Hbefore, elem_of_cons. auto.
Qed.

(** [pipe] appends: the lists are in registration order. *)
Lemma pipe_registration_order this (s : string) (regexp : RegExp) :
  pipes_plain (pipe this [PString s]) = (pipes_plain this ++ [Some s])%list
  /\ pipes_regexp (pipe this [PRegExp regexp]) = (pipes_regexp this ++ [Some regexp])%list.
Proof. split; reflexivity. Qed.

(** What [route] does once the name has resolved to the function
    [handler]. *)
Lemma route_resolved h this request port handler w :
  _findRoute h this request = Ret (Some (Callable handler)) ->
  route h this request port w =
    (response <- _routeCall (Callable handler) (_buildArguments (normalize request) port);;
     if is_false (Message.silent (normalize request)) then ret response
     else ret VUndefined)%eff w.
Proof.
  intros Hfind. unfold route. rewrite _findRoute_normalize, Hfind. reflexivity.
Qed.

(** What [route] does when nothing answers to the name. *)
Lemma route_unresolved h this request port w :
  _findRoute h this request = Ret None ->
  route h this request port w = (Ret (unknown_route request), w).
Proof.
  intros Hfind. unfold route. rewrite _findRoute_normalize, Hfind. reflexivity.
Qed.

Lemma routes_get_registered this (name : string) handler :
  routes this !! name = Some handler -> routes_get this name = Ret (Callable handler).
Proof. intros Hreg. unfold routes_get. rewrite Hreg. reflexivity. Qed.

Lemma _findRoute_registered h this request handler :
  routes this !! Message.name request = Some handler ->
  _findRoute h this request = Ret (Some (Callable handler)).
Proof.
  intros Hreg. unfold _findRoute. rewrite (routes_get_registered _ _ _ Hreg). reflexivity.
Qed.

(** What an object inherits from [Object.prototype]: something under the
    names of [is_inherited], and nothing under any other. *)
Lemma Object_prototype_inherited (name : string) :
  is_undefined (Object_prototype name) = negb (is_inherited name).
Proof.
  unfold Object_prototype, is_inherited.
  destruct (String.eqb name "__proto__"); [reflexivity|].
  destruct (String.eqb name "toString") eqn:Hs.
  - apply String.eqb_eq in Hs. subst name. reflexivity.
  - cbn [orb]. destruct (existsb (String.eqb name) Object_prototype_functions); reflexivity.
Qed.

Lemma Object_prototype_none (name : string) :
  is_inherited name = false -> Object_prototype name = Other VUndefined.
Proof.
  unfold Object_prototype, is_inherited. intros Hin.
  apply orb_false_iff in Hin as [Hproto Hfun]. rewrite Hproto.
  destruct (String.eqb name "toString") eqn:Hs.
  - apply String.eqb_eq in Hs. subst name. discriminate Hfun.
  - rewrite Hfun. reflexivity.
Qed.

(** Logging a thrown value goes well when it is a primitive or carries a
    string for message, as an [Error] does. *)
Lemma Logger_error_plain (err : Value) :
  typeof_object err = false \/ is_nullish err = true
  \/ (exists text, get_opt err "message" = VStr text) ->
  Logger_error err = Ret tt.
Proof.
  unfold Logger_error, String_throws.
  intros [Hprim | [Hnull | (text & Htext)]].
  - destruct err; try discriminate Hprim; reflexivity.
  - destruct err; try discriminate Hnull; reflexivity.
  - rewrite Htext. destruct err; reflexivity.
Qed.

(** What [_routeCall] makes of a handler that throws. *)
Lemma _routeCall_throws (handler : Handler) args err w w' :
  handler args w = (Thr err, w') ->
  _routeCall (Callable handler) args w
  = (match Logger_error err with
     | Ret _ => Ret (VResponse (Failure VUndefined VNull (get_opt err "message")))
     | Thr raised => Thr raised
     end, w').
Proof.
  intros Hthrow. unfold _routeCall, try_catch, bind, apply. rewrite Hthrow.
  destruct (Logger_error err); reflexivity.
Qed.

(** What [_routeCall] makes of a handler that returns. *)
Lemma _routeCall_returns (handler : Handler) args v w w' :
  handler args w = (Ret v, w') ->
  _routeCall (Callable handler) args w
  = (Ret (if instanceof_Promise v then v
          else if instanceof_Response v then v
          else VResponse (Message.success v VUndefined)), w').
Proof.
  intros Hret. unfold _routeCall, try_catch, bind, apply. rewrite Hret.
  destruct (instanceof_Promise v); [reflexivity|].
  destruct (instanceof_Response v); reflexivity.
Qed.

(** C1, as the code has it.  When the handler of a registered route throws
    [err], [route] on a request that is not silent catches it, with the
    handler's effects kept, and logs it.  If the logging goes well, as it
    does for a thrown primitive and for a thrown value whose message is a
    string, [route] returns a Failure response, of code 403 and type
    [null], whose message is [err?.message], that is the [message] property
    of the thrown value, and [undefined] when the thrown value has none.
    If [Logger.error] throws, converting the thrown value to a string,
    that exception reaches the caller of [route]. *)
Theorem route_handler_throws h this request port handler err w w' :
  routes this !! Message.name request = Some handler ->
  truthy (Message.silent request) = false ->
  handler (_buildArguments (normalize request) port) w = (Thr err, w') ->
  (Logger_error err = Ret tt ->
   route h this request port w
   = (Ret (VResponse (Failure VUndefined VNull (get_opt err "message"))), w')
   /\ code (Failure VUndefined VNull (get_opt err "message")) = 403)
  /\ (forall raised, Logger_error err = Thr raised ->
      route h this request port w = (Thr raised, w'))
  /\ (typeof_object err = false \/ is_nullish err = true
      \/ (exists text, get_opt err "message" = VStr text) ->
      Logger_error err = Ret tt).
Proof.
  intros Hreg Hsilent Hthrow.
  assert (Hroute : route h this request port w =
            (match Logger_error err with
             | Ret _ => Ret (VResponse (Failure VUndefined VNull (get_opt err "message")))
             | Thr raised => Thr raised
             end, w')).
  { rewrite (route_resolved h this request port handler w)
      by (apply _findRoute_registered; exact Hreg).
    rewrite (silent_normalize_falsy request Hsilent).
    unfold bind at 1. rewrite (_routeCall_throws _ _ _ _ _ Hthrow).
    destruct (Logger_error err); reflexivity. }
  split; [|split].
  - intros Hlog. rewrite Hroute, Hlog. split; reflexivity.
  - intros raised Hlog. rewrite Hroute, Hlog. reflexivity.
  - apply Logger_error_plain.
Qed.

(** Resolution order of [_findRoute], as the code has it.  What
    [this.routes] holds under the name comes first, whatever the pipes
    hold: a registered handler, and failing that whatever the object
    inherits under that name, function or not.  When [routes] holds
    nothing there, a plain pipe of that name is taken, whatever the patterns
    accept; failing that the patterns, tried from the front of the list up
    to the first that accepts the name; and nothing otherwise.  The list of
    patterns is in registration order: [pipe] adds at its end.  On an
    endpoint whose [routes] has the prototype it started with, the names
    that are inherited are those of [is_inherited]. *)
Theorem _findRoute_order h this request :
  let name := Message.name request in
  (forall handler,
      routes this !! name = Some handler ->
      _findRoute h this request = Ret (Some (Callable handler)))
  /\ (forall held,
      routes this !! name = None ->
      inherited (routes_proto this) name = Ret held ->
      is_undefined held = false ->
      _findRoute h this request = Ret (Some held))
  /\ (routes_get this name = Ret (Other VUndefined) ->
      Some name ∈ pipes_plain this ->
      _findRoute h this request = Ret (Some (Callable (_createPipe h this name))))
  /\ (routes_get this name = Ret (Other VUndefined) ->
      Some name ∉ pipes_plain this ->
      forall before regexp after,
        pipes_regexp this = (before ++ Some regexp :: after)%list ->
        (forall r, Some r ∈ before -> test r name = false) ->
        test regexp name = true ->
        _findRoute h this request = Ret (Some (Callable (_createPipe h this name))))
  /\ (routes_get this name = Ret (Other VUndefined) ->
      Some name ∉ pipes_plain this ->
      (forall r, Some r ∈ pipes_regexp this -> test r name = false) ->
      _findRoute h this request = Ret None)
  /\ (forall err,
      routes_get this name = Thr err -> _findRoute h this request = Thr err)
  /\ (routes this !! name = None ->
      routes_proto this = ObjectPrototype ->
      routes_get this name = Ret (Object_prototype name)
      /\ is_undefined (Object_prototype name) = negb (is_inherited name))
  /\ (forall regexp,
      pipes_regexp (pipe this [PRegExp regexp])
      = (pipes_regexp this ++ [Some regexp])%list).
Proof.
  cbn zeta. repeat apply conj; [| | | | | | |reflexivity].
  - intros handler Hreg. apply _findRoute_registered, Hreg.
  - intros held Hnone Hheld Hdef. unfold _findRoute, routes_get.
    rewrite Hnone, Hheld, Hdef. reflexivity.
  - intros Hnone Hplain. unfold _findRoute. rewrite Hnone.
    apply includes_spec in Hplain. cbn. rewrite Hplain. reflexivity.
  - intros Hnone Hplain before regexp after Hsplit Hbefore Htest.
    unfold _findRoute. rewrite Hnone.
    apply includes_false in Hplain. cbn. rewrite Hplain, Hsplit.
    rewrite _findRoute_regexp_first by assumption.
    cbn. rewrite Htest. reflexivity.
  - intros Hnone Hplain Hall. unfold _findRoute. rewrite Hnone.
    apply includes_false in Hplain. cbn. rewrite Hplain.
    rewrite (_findRoute_regexp_None h this _ _ Hall). reflexivity.
  - intros err Herr. unfold _findRoute. rewrite Herr. reflexivity.
  - intros Hnone Hproto. split; [|apply Object_prototype_inherited].
    unfold routes_get. rewrite Hnone, Hproto. reflexivity.
Qed.

(** C4.  When the handler of a registered route returns [v], [route] on a
    request that is not silent returns [v] itself if it is a promise,
    [v] itself if it is a Response instance, and otherwise a Success
    response, of code 200, whose content is [v]. *)
Theorem route_handler_returns h this request port handler v w w' :
  routes this !! Message.name request = Some handler ->
  truthy (Message.silent request) = false ->
  handler (_buildArguments (normalize request) port) w = (Ret v, w') ->
  (forall handle, v = VPromise handle ->
     route h this request port w = (Ret (VPromise handle), w'))
  /\ (forall r, v = VResponse r ->
     route h this request port w = (Ret (VResponse r), w'))
  /\ (instanceof_Promise v = false -> instanceof_Response v = false ->
     route h this request port w = (Ret (VResponse (Success VUndefined VUndefined v)), w')
     /\ code (Success VUndefined VUndefined v) = 200).
Proof.
  intros Hreg Hsilent Hret.
  assert (Hroute : route h this request port w =
            (Ret (if instanceof_Promise v then v
                  else if instanceof_Response v then v
                  else VResponse (Message.success v VUndefined)), w')).
  { rewrite (route_resolved h this request port handler w)
      by (apply _findRoute_registered; exact Hreg).
    rewrite (silent_normalize_falsy request Hsilent).
    unfold bind at 1. rewrite (_routeCall_returns _ _ _ _ _ Hret). reflexivity. }
  split; [|split].
  - intros handle ->. exact Hroute.
  - intros r ->. exact Hroute.
  - intros Hp Hr. rewrite Hroute, Hp, Hr. split; reflexivity.
Qed.

(** C5.  On a request whose [silent] is [true] and whose name resolves to
    the function [handler], [route] runs the handler, so that the world is
    the one the handler leaves, and returns no value, whatever the handler
    returned.  It returns none either when the handler threw, if the
    exception could be logged; if logging it throws, that exception reaches
    the caller. *)
Theorem route_silent h this request port handler w :
  Message.silent request = VBool true ->
  _findRoute h this request = Ret (Some (Callable handler)) ->
  (forall v w',
      handler (_buildArguments (normalize request) port) w = (Ret v, w') ->
      route h this request port w = (Ret VUndefined, w'))
  /\ (forall err w',
      handler (_buildArguments (normalize request) port) w = (Thr err, w') ->
      route h this request port w
      = (match Logger_error err with
         | Ret _ => Ret VUndefined
         | Thr raised => Thr raised
         end, w')).
Proof.
  intros Hsilent Hfind.
  assert (Hn : Message.silent (normalize request) = VBool true).
  { cbn. rewrite Hsilent. reflexivity. }
  split.
  - intros v w' Hret.
    rewrite (route_resolved h this request port handler w Hfind), Hn.
    unfold bind at 1. rewrite (_routeCall_returns _ _ _ _ _ Hret). reflexivity.
  - intros err w' Hthrow.
    rewrite (route_resolved h this request port handler w Hfind), Hn.
    unfold bind at 1. rewrite (_routeCall_throws _ _ _ _ _ Hthrow).
    destruct (Logger_error err); reflexivity.
Qed.

(** A request whose name is no plain pipe, is accepted by no pattern and
    is no registered route gets, at once and
    with nothing run, an Unknown response, of code 404, whose message
    contains the name, provided [routes] inherits nothing under that name
    either.  An endpoint whose [routes] has the prototype it started with
    inherits nothing under a name that is not among those of
    [is_inherited]. *)
Theorem route_unknown h this request port w :
  let name := Message.name request in
  routes this !! name = None ->
  Some name ∉ pipes_plain this ->
  (forall r, Some r ∈ pipes_regexp this -> test r name = false) ->
  (inherited (routes_proto this) name = Ret (Other VUndefined) ->
   exists message,
     route h this request port w = (Ret (VResponse (Unknown VUndefined (VStr message))), w)
     /\ code (Unknown VUndefined (VStr message)) = 404
     /\ exists before after, message = before ++ name ++ after)
  /\ (routes_proto this = ObjectPrototype -> is_inherited name = false ->
      inherited (routes_proto this) name = Ret (Other VUndefined)).
Proof.
  cbn zeta. intros Hnone Hplain Hall. split.
  - intros Hinherited.
    exists ("Unknown route '" ++ Message.name request ++ "'"). repeat split.
    + apply route_unresolved. unfold _findRoute, routes_get.
      rewrite Hnone, Hinherited. cbn.
      apply includes_false in Hplain. rewrite Hplain.
      rewrite (_findRoute_regexp_None h this _ _ Hall). reflexivity.
    + exists "Unknown route '", "'". reflexivity.
  - intros Hproto Hin. rewrite Hproto. cbn. rewrite (Object_prototype_none _ Hin).
    reflexivity.
Qed.

Lemma _findRoute_piped h this request :
  piped this request ->
  _findRoute h this request = Ret (Some (Callable (_createPipe h this (Message.name request)))).
Proof.
  intros (Hnone & Hpipe). unfold _findRoute. rewrite Hnone. cbn.
  destruct (includes (pipes_plain this) (Message.name request)) eqn:Hinc; [reflexivity|].
  destruct Hpipe as [Hplain | Hre].
  - apply includes_spec in Hplain. congruence.
  - rewrite (_findRoute_regexp_Some h this _ _ Hre). reflexivity.
Qed.

Lemma piped_set_forwarder this request fw :
  piped this request -> piped (set_forwarder fw this) request.
Proof. intros Hp. exact Hp. Qed.

(** After [join], each endpoint holds the other. *)
Lemma join_lookup h (a b : nat) ea eb :
  a <> b -> h !! a = Some ea -> h !! b = Some eb ->
  join h a b !! a = Some (set_forwarder (FwEndpoint b) ea)
  /\ join h a b !! b = Some (set_forwarder (FwEndpoint a) eb).
Proof.
  intros Hne Ha Hb. unfold join. split.
  - rewrite lookup_alter_ne by congruence. rewrite lookup_alter_eq, Ha. reflexivity.
  - rewrite lookup_alter_eq. rewrite lookup_alter_ne by congruence.
    rewrite Hb. reflexivity.
Qed.

(** [forward] on an endpoint whose forwarder is the endpoint [other]:
    [other.request] if it is callable, else [other.post] if it is. *)
Lemma forward_to_endpoint h this (ref : nat) other route params w :
  forwarder this = FwEndpoint ref -> h !! ref = Some other ->
  forward h this route params w =
    match request other with
    | Some rq => rq route params w
    | None =>
        match post other with
        | Some ps => ps route params w
        | None => (Ret VUndefined, w)
        end
    end.
Proof.
  intros Hfw Href. unfold forward. rewrite Hfw. cbn. rewrite Href. cbn.
  destruct (request other); [reflexivity|].
  destruct (post other); reflexivity.
Qed.

(** [forward] with [{}] as forwarder. *)
Lemma forward_to_empty_object h this route params w :
  forwarder this = FwObject None None ->
  forward h this route params w = (Ret VUndefined, w).
Proof. intros Hfw. unfold forward. rewrite Hfw. reflexivity. Qed.

(** C10, as the code has it.  Two endpoints [a] and [b] are joined.  A
    request that [a] resolves through a pipe is handed by the pipe's
    handler, through [forward], to [b]: to [b.request] when [b] has one,
    to [b.post] when it only has that; and likewise from [b] to [a].
    Once [a.forwarder] is set to [{}], the handler of a request that [a]
    resolves through a pipe returns [undefined] and throws nothing, and
    [route], on a request that is not silent, returns this wrapped in a
    Success response of code 200. *)
Theorem join_forwards_then_empty_forwarder h (a b : nat) ea eb request_a request_b :
  a <> b -> h !! a = Some ea -> h !! b = Some eb ->
  piped ea request_a -> piped eb request_b ->
  truthy (Message.silent request_a) = false ->
  let h1 := join h a b in
  let ea1 := set_forwarder (FwEndpoint b) ea in
  let eb1 := set_forwarder (FwEndpoint a) eb in
  let h2 := alter (set_forwarder (FwObject None None)) a h1 in
  let ea2 := set_forwarder (FwObject None None) ea1 in
  (h1 !! a = Some ea1 /\ h1 !! b = Some eb1)
  /\ (exists handler,
        _findRoute h1 ea1 request_a = Ret (Some (Callable handler))
        /\ forall arguments w,
            let params := pipe_params (cls ea) arguments in
            (forall rq, request eb = Some rq ->
               handler arguments w = rq (Message.name request_a) params w)
            /\ (forall ps, request eb = None -> post eb = Some ps ->
               handler arguments w = ps (Message.name request_a) params w))
  /\ (exists handler,
        _findRoute h1 eb1 request_b = Ret (Some (Callable handler))
        /\ forall arguments w,
            let params := pipe_params (cls eb) arguments in
            (forall rq, request ea = Some rq ->
               handler arguments w = rq (Message.name request_b) params w)
            /\ (forall ps, request ea = None -> post ea = Some ps ->
               handler arguments w = ps (Message.name request_b) params w))
  /\ h2 !! a = Some ea2
  /\ (exists handler,
        _findRoute h2 ea2 request_a = Ret (Some (Callable handler))
        /\ forall arguments w, handler arguments w = (Ret VUndefined, w))
  /\ (forall port w,
        route h2 ea2 request_a port w
        = (Ret (VResponse (Success VUndefined VUndefined VUndefined)), w)).
Proof.
  intros Hne Ha Hb Hpa Hpb Hsilent h1 ea1 eb1 h2 ea2.
  destruct (join_lookup h a b ea eb Hne Ha Hb) as [Ha1 Hb1].
  assert (Ha2 : h2 !! a = Some ea2).
  { unfold h2, h1. rewrite lookup_alter_eq, Ha1. reflexivity. }
  assert (Hundef : forall arguments w,
            _createPipe h2 ea2 (Message.name request_a) arguments w = (Ret VUndefined, w)).
  { intros arguments w. unfold _createPipe.
    apply forward_to_empty_object. reflexivity. }
  split; [split; assumption|].
  split; [|split; [|split; [exact Ha2|split]]].
  - exists (_createPipe h1 ea1 (Message.name request_a)).
    split; [apply _findRoute_piped, piped_set_forwarder, Hpa|].
    intros arguments w params. unfold _createPipe.
    rewrite (forward_to_endpoint h1 ea1 b (set_forwarder (FwEndpoint a) eb))
      by (reflexivity || exact Hb1).
    cbn [request post set_forwarder]. split.
    + intros rq ->. reflexivity.
    + intros ps -> ->. reflexivity.
  - exists (_createPipe h1 eb1 (Message.name request_b)).
    split; [apply _findRoute_piped, piped_set_forwarder, Hpb|].
    intros arguments w params. unfold _createPipe.
    rewrite (forward_to_endpoint h1 eb1 a (set_forwarder (FwEndpoint b) ea))
      by (reflexivity || exact Ha1).
    cbn [request post set_forwarder]. split.
    + intros rq ->. reflexivity.
    + intros ps -> ->. reflexivity.
  - exists (_createPipe h2 ea2 (Message.name request_a)).
    split; [|exact Hundef].
    apply _findRoute_piped. unfold ea2, ea1. do 2 apply piped_set_forwarder. exact Hpa.
  - intros port w.
    rewrite (route_resolved h2 ea2 request_a port
               (_createPipe h2 ea2 (Message.name request_a)) w).
    + rewrite (silent_normalize_falsy request_a Hsilent).
      unfold bind at 1. erewrite _routeCall_returns by apply Hundef. reflexivity.
    + apply _findRoute_piped. unfold ea2, ea1. do 2 apply piped_set_forwarder. exact Hpa.
Qed.

End Router.
End EndpointFacts.

(** ** The transport adapters *)

Module AdapterFacts.
Section Adapters.

Context {World : Type} {conversion : Conversion} {engine : Endpoint.Engine (World := World)}.
Variable ToNumber : Value -> option Z.
Variable sendNativeMessage : string -> Message.Request -> World -> Settlement * World.




End Adapters.
End AdapterFacts.

(** ** The printer service *)

Module PrinterFacts.
Import PrinterService.
Section Printer.

Context {conversion : Conversion}.

(** C8.  A job whose [printerName] is missing or empty is dropped:
    [createJob] returns [undefined] and the service is left as it was, its
    registry untouched and its trace no longer, so that neither the native
    host nor the job's callback has been called. *)
Theorem createJob_without_printerName (port : Value) (job : PrintJobLike) (s : Service) :
  truthy (printerName job) = false ->
  createJob port job s = (Ret VUndefined, s).
Proof.
  intros Hname. unfold createJob. rewrite Hname. reflexivity.
Qed.

End Printer.
End PrinterFacts.

(** ** The download service *)

Module DownloadFacts.
Import DownloadService Downloads.

Lemma with_job_present id j s : jobs s !! id = Some j -> s = with_job id j s.
Proof.
  intros Hj. destruct s as [d js t]. unfold with_job, set_jobs. cbn in *.
  rewrite insert_id by exact Hj. reflexivity.
Qed.

Lemma with_job_again id j j' s : with_job id j' (with_job id j s) = with_job id j' s.
Proof.
  unfold with_job, set_jobs. cbn. rewrite insert_insert_eq. reflexivity.
Qed.

Lemma with_job_lookup id j s : jobs (with_job id j s) !! id = Some j.
Proof. unfold with_job. cbn. apply lookup_insert_eq. Qed.

Lemma the_job_present id k write j s :
  the_job id k write (with_job id j s) = (Ret j, with_job id j s).
Proof. unfold the_job. rewrite with_job_lookup. reflexivity. Qed.

Lemma update_job_present id k f j s :
  update_job id k f (with_job id j s) = (Ret tt, with_job id (f j) s).
Proof.
  unfold update_job. rewrite (bind_Ret _ _ _ _ _ (the_job_present id k true j s)).
  fold (with_job id (f j) (with_job id j s)). rewrite with_job_again. reflexivity.
Qed.

Lemma write_destination_present id v j r s :
  job_response j = Some r ->
  write_destination id v (with_job id j s)
  = (Ret tt, with_job id (with_response (set_destination v) j) s).
Proof.
  intros Hr. unfold write_destination.
  rewrite (bind_Ret _ _ _ _ _ (the_job_present id "response" false j s)).
  rewrite Hr. apply update_job_present.
Qed.

Lemma _cleanupJob_spec id (removeFile : bool) s :
  _cleanupJob id removeFile s
  = (Ret tt,
     add_trace (if removeFile then [CallRemoveFile id; CallErase id] else [])
       (set_jobs (delete id) s)).
Proof.
  unfold _cleanupJob, bind, emit, add_trace. destruct removeFile; cbn.
  - rewrite <- app_assoc. reflexivity.
  - rewrite app_nil_r. reflexivity.
Qed.

Lemma refresh_steps delta j r s (k : M Service unit) :
  job_response j = Some r ->
  delta_error delta = None ->
  (_ <- when_present (delta_error delta) (fun current =>
          _ <- _notifyDownloadJob (delta_id delta) false current;;
          _cleanupJob (delta_id delta) true);;
   _ <- when_present (delta_filename delta) (fun current =>
          _ <- update_job (delta_id delta) "filename" (with_filename current);;
          write_destination (delta_id delta) current);;
   _ <- when_present (delta_fileSize delta) (fun current =>
          update_job (delta_id delta) "fileSize" (with_fileSize current));;
   _ <- when_present (delta_totalBytes delta) (fun current =>
          update_job (delta_id delta) "totalBytes" (with_totalBytes current));;
   _ <- when_present (delta_exists delta) (fun current =>
          update_job (delta_id delta) "exists" (with_exists current));;
   k)%eff (with_job (delta_id delta) j s)
  = k (with_job (delta_id delta) (refreshed delta j) s).
Proof.
  intros Hr Herr. rewrite Herr. unfold refreshed.
  cbn [when_present]. unfold bind at 1. cbn [ret].
  destruct (delta_filename delta) as [fname|]; cbn [when_present].
  - erewrite bind_Ret; cycle 1.
    { erewrite bind_Ret by apply update_job_present.
      apply (write_destination_present _ _ _ r). exact Hr. }
    destruct (delta_fileSize delta), (delta_totalBytes delta), (delta_exists delta);
      cbn [when_present];
      repeat (erewrite bind_Ret by (apply update_job_present || reflexivity));
      reflexivity.
  - unfold bind at 1. cbn [ret].
    destruct (delta_fileSize delta), (delta_totalBytes delta), (delta_exists delta);
      cbn [when_present];
      repeat (erewrite bind_Ret by (apply update_job_present || reflexivity));
      reflexivity.
Qed.

Lemma refreshed_fields delta j :
  job_port (refreshed delta j) = job_port j
  /\ job_onFinish (refreshed delta j) = job_onFinish j
  /\ job_filename (refreshed delta j) = default (job_filename j) (delta_filename delta)
  /\ job_fileSize (refreshed delta j) = default (job_fileSize j) (delta_fileSize delta).
Proof.
  unfold refreshed.
  destruct (delta_filename delta), (delta_fileSize delta), (delta_totalBytes delta),
    (delta_exists delta); repeat split; reflexivity.
Qed.

Lemma refreshed_response delta j r :
  job_response j = Some r ->
  exists r', job_response (refreshed delta j) = Some r'
             /\ id r' = id r /\ name r' = name r.
Proof.
  intros Hr. unfold refreshed.
  destruct (delta_filename delta), (delta_fileSize delta), (delta_totalBytes delta),
    (delta_exists delta); cbn; rewrite Hr; cbn; eexists; repeat split; reflexivity.
Qed.

Lemma refreshed_no_response delta j :
  job_response j = None -> job_response (refreshed delta j) = None.
Proof.
  intros Hr. unfold refreshed.
  destruct (delta_filename delta), (delta_fileSize delta), (delta_totalBytes delta),
    (delta_exists delta); cbn; rewrite Hr; reflexivity.
Qed.

Lemma match_complete {A : Type} (state : Value) (yes no : A) :
  match state with VStr "complete" => yes | _ => no end
  = if is_complete state then yes else no.
Proof.
  destruct state as [| | | |s| | | | |]; try reflexivity. unfold is_complete.
  do 8 (destruct s as [|[[] [] [] [] [] [] [] []] s]; try reflexivity).
  destruct s; reflexivity.
Qed.



(** What [_notifyDownloadJob] does for the job [j]. *)
Lemma _notifyDownloadJob_run id (success : bool) (reason : Value) j s :
  _notifyDownloadJob id success reason (with_job id j s) =
    match job_response j, job_onFinish j with
    | Some r, Some onFinish =>
        (match onFinish (job_port j) (notified j r success reason) with
         | Ret _ => Ret true
         | Thr e => Thr e
         end,
         add_trace [CallOnFinish (job_port j) (notified j r success reason)]
           (with_job id (with_response (fun _ => notified j r success reason) j) s))
    | _, _ => (Ret false, with_job id j s)
    end.
Proof.
  unfold _notifyDownloadJob.
  rewrite (bind_Ret _ _ _ _ _ (the_job_present id "response" false j s)).
  destruct (job_response j) as [r|]; [|reflexivity].
  destruct (job_onFinish j) as [onFinish|]; [|reflexivity].
  rewrite (bind_Ret _ _ _ _ _ (update_job_present id "response" _ j s)).
  unfold bind, emit. fold (notified j r success reason).
  destruct (onFinish (job_port j) (notified j r success reason)); reflexivity.
Qed.

(** The end of a job: the caller is told, when there is one to tell and
    its callback returns, and the entry is deleted. *)
Lemma end_of_job id (success removeFile : bool) (reason : Value) j s :
  callback_returns j success reason ->
  (_ <- _notifyDownloadJob id success reason;; _cleanupJob id removeFile)%eff
    (with_job id j s)
  = (Ret tt,
     ended id (notice j success reason ++ if removeFile then removal id else []) s).
Proof.
  unfold callback_returns, notice. intros Hcb. unfold bind at 1.
  rewrite _notifyDownloadJob_run.
  destruct (job_response j) as [r|]; [destruct (job_onFinish j) as [onFinish|]|].
  - rewrite Hcb, _cleanupJob_spec. unfold ended, add_trace, set_jobs, with_job. cbn.
    rewrite delete_insert_eq, <- app_assoc. reflexivity.
  - rewrite _cleanupJob_spec. unfold ended, add_trace, set_jobs, with_job. cbn.
    rewrite delete_insert_eq. reflexivity.
  - rewrite _cleanupJob_spec. unfold ended, add_trace, set_jobs, with_job. cbn.
    rewrite delete_insert_eq. reflexivity.
Qed.

(** The end of a job whose callback throws: the exception passes, and the
    cleanup that was to follow does not run. *)
Lemma end_of_job_thrown id (success removeFile : bool) (reason : Value) j r onFinish e s :
  job_response j = Some r -> job_onFinish j = Some onFinish ->
  onFinish (job_port j) (notified j r success reason) = Thr e ->
  (_ <- _notifyDownloadJob id success reason;; _cleanupJob id removeFile)%eff
    (with_job id j s)
  = (Thr e,
     add_trace [CallOnFinish (job_port j) (notified j r success reason)]
       (with_job id (with_response (fun _ => notified j r success reason) j) s)).
Proof.
  intros Hr Hcb Hthrow. unfold bind at 1.
  rewrite _notifyDownloadJob_run, Hr, Hcb, Hthrow. reflexivity.
Qed.

(** The copying steps of the listener, for a delta without error, on a job
    that has a response or with a delta that brings no filename. *)
Lemma refresh_run delta j s (k : M Service unit) :
  delta_error delta = None ->
  is_Some (job_response j) \/ delta_filename delta = None ->
  (_ <- when_present (delta_error delta) (fun current =>
          _ <- _notifyDownloadJob (delta_id delta) false current;;
          _cleanupJob (delta_id delta) true);;
   _ <- when_present (delta_filename delta) (fun current =>
          _ <- update_job (delta_id delta) "filename" (with_filename current);;
          write_destination (delta_id delta) current);;
   _ <- when_present (delta_fileSize delta) (fun current =>
          update_job (delta_id delta) "fileSize" (with_fileSize current));;
   _ <- when_present (delta_totalBytes delta) (fun current =>
          update_job (delta_id delta) "totalBytes" (with_totalBytes current));;
   _ <- when_present (delta_exists delta) (fun current =>
          update_job (delta_id delta) "exists" (with_exists current));;
   k)%eff (with_job (delta_id delta) j s)
  = k (with_job (delta_id delta) (refreshed delta j) s).
Proof.
  intros Herr [[r Hr] | Hname]; [apply (refresh_steps delta j r s k Hr Herr)|].
  rewrite Herr. unfold refreshed. rewrite Hname.
  cbn [when_present]. unfold bind at 1. cbn [ret]. unfold bind at 1. cbn [ret].
  destruct (delta_fileSize delta), (delta_totalBytes delta), (delta_exists delta);
    cbn [when_present];
    repeat (erewrite bind_Ret by (apply update_job_present || reflexivity));
    reflexivity.
Qed.

(** The listener on a delta without error that reports the state
    ["complete"], up to the end of the job. *)
Lemma complete_steps ToNumber delta s j :
  jobs s !! delta_id delta = Some j ->
  delta_error delta = None ->
  (exists state, delta_state delta = Some state /\ is_complete state = true) ->
  is_Some (job_response j) \/ delta_filename delta = None ->
  let j' := refreshed delta j in
  let empty := loose_eq_num ToNumber (job_fileSize j') 0 in
  _onChangedListener ToNumber delta s
  = (_ <- _notifyDownloadJob (delta_id delta) (negb empty)
            (if empty then VStr "Empty content" else VUndefined);;
     _cleanupJob (delta_id delta) empty)%eff (with_job (delta_id delta) j' s).
Proof.
  intros Hj Herr (state & Hstate & Hcomplete) Hsafe j' empty.
  unfold _onChangedListener. rewrite Hj.
  rewrite (with_job_present _ _ _ Hj) at 1.
  rewrite (refresh_run delta j s _ Herr Hsafe).
  rewrite Hstate. cbn [when_present]. rewrite match_complete, Hcomplete.
  rewrite (bind_Ret _ _ _ _ _ (the_job_present _ "fileSize" false _ s)).
  fold j'. fold empty. destruct empty; reflexivity.
Qed.

(** A delta without error that reports the state ["complete"]. *)
Lemma complete_run ToNumber delta s j :
  jobs s !! delta_id delta = Some j ->
  delta_error delta = None ->
  (exists state, delta_state delta = Some state /\ is_complete state = true) ->
  is_Some (job_response j) \/ delta_filename delta = None ->
  let j' := refreshed delta j in
  let empty := loose_eq_num ToNumber (job_fileSize j') 0 in
  callback_returns j' (negb empty) (if empty then VStr "Empty content" else VUndefined) ->
  _onChangedListener ToNumber delta s
  = (Ret tt,
     ended (delta_id delta)
       (notice j' (negb empty) (if empty then VStr "Empty content" else VUndefined)
        ++ if empty then removal (delta_id delta) else []) s).
Proof.
  intros Hj Herr Hstate Hsafe j' empty Hcb.
  rewrite (complete_steps ToNumber delta s j Hj Herr Hstate Hsafe).
  fold j'. fold empty. apply end_of_job. exact Hcb.
Qed.

(** C7, as the code has it.  The job [j] of the delta is tracked; the
    delta reports no error and the state ["complete"], and brings a
    filename only if the job has a response to write it to; [j'] is the
    job as the delta updates it.  The job counts as empty when its
    [fileSize] is loosely equal to 0.  When the job has a response and a
    callback, and the callback returns, the callback is called, with
    [success = false] and the reason ["Empty content"] for an empty job
    and with [success = true] for any other; then the entry is deleted
    from the registry, and for an empty job the file is removed and its
    history entry erased.  A tracked job without response or without
    callback ends the same way, but nobody is told.  When the callback
    throws, its exception leaves the listener: nothing is removed and the
    job stays in the registry. *)
Theorem _onChangedListener_complete ToNumber delta s j :
  jobs s !! delta_id delta = Some j ->
  delta_error delta = None ->
  delta_state delta = Some (VStr "complete") ->
  is_Some (job_response j) \/ delta_filename delta = None ->
  let id := delta_id delta in
  let j' := refreshed delta j in
  let empty := loose_eq_num ToNumber (job_fileSize j') 0 in
  let reason := if empty then VStr "Empty content" else VUndefined in
  (forall r onFinish,
      job_response j' = Some r -> job_onFinish j' = Some onFinish ->
      let told :=
        {| DownloadService.id := DownloadService.id r; name := name r;
           destination := job_filename j';
           reason := if empty then VStr "Empty content" else VStr "";
           success := negb empty; downloading := false |} in
      (onFinish (job_port j') told = Ret tt ->
       _onChangedListener ToNumber delta s
       = (Ret tt,
          ended id (CallOnFinish (job_port j') told :: if empty then removal id else []) s))
      /\ (forall e, onFinish (job_port j') told = Thr e ->
          exists s',
            _onChangedListener ToNumber delta s = (Thr e, s')
            /\ is_Some (jobs s' !! id)
            /\ trace s' = (trace s ++ [CallOnFinish (job_port j') told])%list))
  /\ (job_response j' = None \/ job_onFinish j' = None ->
      _onChangedListener ToNumber delta s
      = (Ret tt, ended id (if empty then removal id else []) s))
  /\ (forall n, job_fileSize j' = VNum n -> empty = Z.eqb n 0)
  /\ job_port j' = job_port j /\ job_onFinish j' = job_onFinish j
  /\ job_filename j' = default (job_filename j) (delta_filename delta)
  /\ job_fileSize j' = default (job_fileSize j) (delta_fileSize delta).
Proof.
  intros Hj Herr Hstate Hsafe id j' empty reason.
  assert (Hcomplete : exists state,
             delta_state delta = Some state /\ is_complete state = true)
    by (eexists; split; [exact Hstate | reflexivity]).
  pose proof (complete_steps ToNumber delta s j Hj Herr Hcomplete Hsafe) as Hsteps.
  cbv zeta in Hsteps. fold j' in Hsteps. fold empty in Hsteps. fold id in Hsteps.
  split; [|split; [|split]].
  - intros r onFinish Hr Hcb told.
    assert (Htold : notified j' r (negb empty)
                      (if empty then VStr "Empty content" else VUndefined) = told).
    { unfold notified, told. destruct empty; reflexivity. }
    split.
    + intros Hret. rewrite Hsteps.
      rewrite (end_of_job id (negb empty) empty _ j' s).
      * unfold notice. rewrite Hr, Hcb, Htold. reflexivity.
      * unfold callback_returns. rewrite Hr, Hcb, Htold. exact Hret.
    + intros e Hthrow. eexists. split; [|split].
      * rewrite Hsteps.
        apply (end_of_job_thrown id (negb empty) empty _ j' r onFinish e s Hr Hcb).
        rewrite Htold. exact Hthrow.
      * cbn. rewrite lookup_insert_eq. eexists. reflexivity.
      * cbn. rewrite Htold. reflexivity.
  - intros Hnone. rewrite Hsteps.
    rewrite (end_of_job id (negb empty) empty _ j' s).
    + unfold notice. destruct Hnone as [Hnone|Hnone]; rewrite Hnone;
        [|destruct (job_response j')]; reflexivity.
    + unfold callback_returns. destruct Hnone as [Hnone|Hnone]; rewrite Hnone;
        [|destruct (job_response j')]; exact I.
  - intros n Hn. unfold empty. rewrite Hn. reflexivity.
  - apply refreshed_fields.
Qed.

End DownloadFacts.

(** * The properties at work *)

Module Witness.
Import Endpoint Scenario.

(** A handler that throws [new Error("boom")]; and one that throws an
    object that cannot be turned into a string. *)
Lemma route_handler_throws_witness :
  routes router !! "fail" = Some (counting (Thr (VError "Error" "boom")))
  /\ route ∅ router (Message.request "fail" VUndefined) VUndefined 0%nat
     = (Ret (VResponse (Failure VUndefined VNull (VStr "boom"))), 1%nat)
  /\ route (conversion := bare_objects) ∅ throwing_bare
       (Message.request "bad" VUndefined) VUndefined 0%nat
     = (Thr (VError "TypeError" "Cannot convert object to primitive value"), 1%nat).
Proof.
  split; [reflexivity|]. split.
  - apply (EndpointFacts.route_handler_throws ∅ router (Message.request "fail" VUndefined)
             VUndefined (counting (Thr (VError "Error" "boom"))) (VError "Error" "boom")
             0%nat 1%nat); reflexivity.
  - apply (proj1 (proj2 (EndpointFacts.route_handler_throws (conversion := bare_objects)
                           ∅ throwing_bare (Message.request "bad" VUndefined) VUndefined
                           (counting (Thr (VObj []))) (VObj []) 0%nat 1%nat
                           eq_refl eq_refl eq_refl))).
    reflexivity.
Defined.

(** C1 as stated fails: the response to a handler that throws
    [new Error("boom")] has code 403, not 500; and for a handler that
    throws the string ["boom"] the message of the response is [undefined],
    not the thrown value. *)
Lemma route_handler_throws_is_not_500 :
  ~ (exists r,
        fst (route ∅ router (Message.request "fail" VUndefined) VUndefined 0%nat)
        = Ret (VResponse r) /\ code r = 500)
  /\ ~ (exists r,
          fst (route ∅ router (Message.request "fail.text" VUndefined) VUndefined 0%nat)
          = Ret (VResponse r) /\ get (VResponse r) "message" = VStr "boom").
Proof.
  split; intros (r & Hroute & Hr); vm_compute in Hroute;
    injection Hroute as <-; discriminate Hr.
Qed.

(** ["ping"] is registered, piped and accepted by a pattern: the registered
    handler is found.  ["relay"] is only piped; ["other"] is only accepted by
    the second pattern. *)
Lemma _findRoute_order_witness :
  routes router !! "ping" = Some (counting (Ret (VStr "pong")))
  /\ Some "ping" ∈ pipes_plain router
  /\ test any_name "ping" = true
  /\ _findRoute ∅ router (Message.request "ping" VUndefined)
     = Ret (Some (Callable (counting (Ret (VStr "pong")))))
  /\ _findRoute ∅ router (Message.request "relay" VUndefined)
     = Ret (Some (Callable (_createPipe ∅ router "relay")))
  /\ _findRoute ∅ router (Message.request "other" VUndefined)
     = Ret (Some (Callable (_createPipe ∅ router "other"))).
Proof.
  destruct (EndpointFacts._findRoute_order ∅ router (Message.request "ping" VUndefined))
    as (Hregistered & _).
  destruct (EndpointFacts._findRoute_order ∅ router (Message.request "relay" VUndefined))
    as (_ & _ & Hplain & _).
  destruct (EndpointFacts._findRoute_order ∅ router (Message.request "other" VUndefined))
    as (_ & _ & _ & Hpattern & _).
  split; [reflexivity|]. split; [apply list_elem_of_here|]. split; [reflexivity|].
  split; [apply Hregistered; reflexivity|].
  split; [apply Hplain; [reflexivity | apply list_elem_of_further, list_elem_of_here]|].
  apply (Hpattern eq_refl) with (before := [Some no_name]) (regexp := any_name) (after := []).
  - intros Hin. apply elem_of_cons in Hin as [Heq|Hin]; [discriminate|].
    apply elem_of_cons in Hin as [Heq|Hin]; [discriminate|]. inversion Hin.
  - reflexivity.
  - intros r Hin. apply elem_of_cons in Hin as [Heq|Hin]; [|inversion Hin].
    injection Heq as ->. reflexivity.
  - reflexivity.
Defined.

(** C3, on the code.  The handler table is the object [routes], read by
    [routes[name]], which also finds what every object inherits.  On the
    endpoint [bare], where nothing is registered and nothing piped, the
    name ["toString"] resolves all the same, to the inherited function;
    and on [stringly], where ["toString"] is a plain pipe and no handler
    is registered, it resolves to that function and not to the handler of
    the pipe, which would have forwarded the request. *)
Theorem _findRoute_inherited_name :
  routes bare = ∅ /\ pipes_plain bare = [] /\ pipes_regexp bare = []
  /\ _findRoute ∅ bare (Message.request "toString" VUndefined)
     = Ret (Some (Callable Object_prototype_toString))
  /\ routes stringly = ∅ /\ pipes_plain stringly = [Some "toString"]
  /\ _findRoute ∅ stringly (Message.request "toString" VUndefined)
     = Ret (Some (Callable Object_prototype_toString))
  /\ Object_prototype_toString [] 0%nat = (Ret (VStr "[object Object]"), 0%nat)
  /\ _createPipe ∅ stringly "toString" [] 0%nat = (Ret VUndefined, 0%nat).
Proof. repeat split. Qed.

(** A handler that returns a string, and one that returns a Failure. *)
Lemma route_handler_returns_witness :
  route ∅ router (Message.request "ping" VUndefined) VUndefined 0%nat
  = (Ret (VResponse (Success VUndefined VUndefined (VStr "pong"))), 1%nat)
  /\ route ∅ router (Message.request "refuse" VUndefined) VUndefined 0%nat
     = (Ret (VResponse (Failure VUndefined VNull (VStr "x"))), 1%nat).
Proof.
  split.
  - apply (EndpointFacts.route_handler_returns ∅ router (Message.request "ping" VUndefined)
             VUndefined (counting (Ret (VStr "pong"))) (VStr "pong") 0%nat 1%nat);
      reflexivity.
  - apply (EndpointFacts.route_handler_returns ∅ router (Message.request "refuse" VUndefined)
             VUndefined
             (counting (Ret (VResponse (Message.failure (VStr "x") VUndefined VUndefined))))
             (VResponse (Failure VUndefined VNull (VStr "x"))) 0%nat 1%nat);
      reflexivity.
Defined.

(** The handler of ["ping"] runs once; nothing comes back. *)
Lemma route_silent_witness :
  route ∅ router (silently (Message.request "ping" VUndefined)) VUndefined 0%nat
  = (Ret VUndefined, 1%nat).
Proof.
  apply (proj1 (EndpointFacts.route_silent ∅ router
                  (silently (Message.request "ping" VUndefined))
                  VUndefined (counting (Ret (VStr "pong"))) 0%nat eq_refl eq_refl)
           (VStr "pong") 1%nat eq_refl).
Defined.

(** A name that [left] neither registers nor pipes, and that no object
    inherits. *)
Lemma route_unknown_witness :
  exists message,
    route ∅ left (Message.request "nowhere" VUndefined) VUndefined 0%nat
    = (Ret (VResponse (Unknown VUndefined (VStr message))), 0%nat)
    /\ code (Unknown VUndefined (VStr message)) = 404
    /\ exists before after, message = before ++ "nowhere" ++ after.
Proof.
  refine (proj1 (EndpointFacts.route_unknown ∅ left (Message.request "nowhere" VUndefined)
                   VUndefined 0%nat eq_refl _ _) eq_refl).
  - intros Hin. apply elem_of_cons in Hin as [Heq|Hin]; [discriminate | inversion Hin].
  - intros r Hin. inversion Hin.
Defined.

(** C6, on the code.  ["toString"] is no registered handler of [bare] and
    is matched by no pipe; the request for it is answered, not by the
    Unknown response, but by a Success response, of code 200, with what the
    function that [routes] inherits under that name returned. *)
Theorem route_inherited_name_is_not_404 :
  routes bare = ∅ /\ pipes_plain bare = [] /\ pipes_regexp bare = []
  /\ route ∅ bare (Message.request "toString" VUndefined) VUndefined 0%nat
     = (Ret (VResponse (Success VUndefined VUndefined (VStr "[object Object]"))), 0%nat)
  /\ code (Success VUndefined VUndefined (VStr "[object Object]")) = 200.
Proof. repeat split. Qed.

(** [left] joined with [right], whose [request] echoes the route; then
    [left.forwarder = {}]. *)
Lemma join_forwards_then_empty_forwarder_witness :
  join heap 0%nat 1%nat !! 0%nat = Some (set_forwarder (FwEndpoint 1) left)
  /\ _createPipe (join heap 0%nat 1%nat) (set_forwarder (FwEndpoint 1) left) "relay"
       [VNum 1; VNum 2] 0%nat
     = (Ret (VStr "relay"), 1%nat)
  /\ _createPipe heap_unjoined left_unjoined "relay" [VNum 1; VNum 2] 0%nat
     = (Ret VUndefined, 0%nat)
  /\ route heap_unjoined left_unjoined (Message.request "relay" VUndefined) VUndefined 0%nat
     = (Ret (VResponse (Success VUndefined VUndefined VUndefined)), 0%nat).
Proof.
  assert (Hleft : piped left (Message.request "relay" VUndefined)).
  { split; [reflexivity | left; apply list_elem_of_here]. }
  assert (Hright : piped right (Message.request "back" VUndefined)).
  { split; [reflexivity | left; apply list_elem_of_here]. }
  destruct (EndpointFacts.join_forwards_then_empty_forwarder heap 0%nat 1%nat left right
              (Message.request "relay" VUndefined) (Message.request "back" VUndefined)
              ltac:(discriminate) eq_refl eq_refl Hleft Hright eq_refl)
    as ((Hl & _) & (to_right & Hfind1 & Hto_right) & _ & _ & (dropped & Hfind2 & Hdropped)
        & Hroute).
  split; [exact Hl|].
  rewrite (EndpointFacts._findRoute_piped (join heap 0%nat 1%nat)
             (set_forwarder (FwEndpoint 1) left) _ Hleft) in Hfind1.
  rewrite (EndpointFacts._findRoute_piped
             (alter (set_forwarder (FwObject None None)) 0%nat (join heap 0%nat 1%nat))
             left_unjoined _ Hleft) in Hfind2.
  injection Hfind1 as <-. injection Hfind2 as <-.
  split; [|split].
  - destruct (Hto_right [VNum 1; VNum 2] 0%nat) as (Hrequest & _).
    rewrite (Hrequest _ eq_refl). reflexivity.
  - apply Hdropped.
  - apply Hroute.
Defined.

(** C10 as stated fails for the value that [route] returns: once
    [left.forwarder] is [{}], routing a piped name does not return
    [undefined] but a Success response. *)
Lemma route_piped_without_forwarder_is_not_undefined :
  fst (route heap_unjoined left_unjoined (Message.request "relay" VUndefined) VUndefined 0%nat)
  <> Ret VUndefined.
Proof. vm_compute. discriminate. Qed.



(** A print job as [new PrintJob()] leaves it, with [printerName = ""]. *)
Lemma createJob_without_printerName_witness :
  let job :=
    {| PrinterService.filename := "invoice.pdf"; PrinterService.printerName := VStr "";
       PrinterService.onFinish := Some (fun _ _ => Ret tt);
       PrinterService.success := VBool false; PrinterService.reason := VStr "";
       PrinterService.extra := [] |} in
  truthy (PrinterService.printerName job) = false
  /\ PrinterService.createJob (VObj [("contextId", VStr "tab-1")]) job
       (PrinterService.configure "printers/" PrinterService.new_PrinterService)
     = (Ret VUndefined, PrinterService.configure "printers/" PrinterService.new_PrinterService).
Proof.
  split; [reflexivity|].
  apply PrinterFacts.createJob_without_printerName. reflexivity.
Defined.

(** The download 7 completes, with 0 bytes and with 2048. *)
Lemma _onChangedListener_complete_witness :
  DownloadService._onChangedListener no_number completed (downloading 0)
  = (Ret tt,
     {| DownloadService.dirDownloads := Some "nmind/";
        DownloadService.jobs := delete 7 {[ 7 := tracked 0 ]};
        DownloadService.trace :=
          [DownloadService.CallOnFinish (VObj [("contextId", VStr "tab-1")])
             (finished false "Empty content");
           DownloadService.CallRemoveFile 7; DownloadService.CallErase 7] |})
  /\ DownloadService._onChangedListener no_number completed (downloading 2048)
     = (Ret tt,
        {| DownloadService.dirDownloads := Some "nmind/";
           DownloadService.jobs := delete 7 {[ 7 := tracked 2048 ]};
           DownloadService.trace :=
             [DownloadService.CallOnFinish (VObj [("contextId", VStr "tab-1")])
                (finished true "")] |}).
Proof.
  split.
  - exact (proj1 (proj1 (DownloadFacts._onChangedListener_complete no_number completed
                           (downloading 0) (tracked 0)
                           eq_refl eq_refl eq_refl (or_intror eq_refl))
                    started (fun _ _ => Ret tt) eq_refl eq_refl) eq_refl).
  - exact (proj1 (proj1 (DownloadFacts._onChangedListener_complete no_number completed
                           (downloading 2048) (tracked 2048)
                           eq_refl eq_refl eq_refl (or_intror eq_refl))
                    started (fun _ _ => Ret tt) eq_refl eq_refl) eq_refl).
Defined.

(** C7 as stated fails for tracked jobs that the claim does not set
    apart.  The download 7 tracked since [onCreated] alone, with no caller
    behind it, completes with 2048 bytes: the entry is deleted and nobody
    is notified.  The download 7 of a caller whose callback throws
    completes with 0 bytes: the callback is called, its exception leaves
    the listener, the file is not removed and the job stays in the
    registry. *)
Lemma _onChangedListener_complete_untold_or_kept :
  DownloadService._onChangedListener no_number completed (following (untold 2048))
  = (Ret tt,
     {| DownloadService.dirDownloads := Some "nmind/";
        DownloadService.jobs := delete 7 {[ 7 := untold 2048 ]};
        DownloadService.trace := [] |})
  /\ exists s',
      DownloadService._onChangedListener no_number completed
        (following (tracked_by closed_tab 0))
      = (Thr (VError "Error" "tab closed"), s')
      /\ is_Some (DownloadService.jobs s' !! 7)
      /\ DownloadService.trace s'
         = [DownloadService.CallOnFinish tab (finished false "Empty content")].
Proof.
  split; [reflexivity|].
  eexists. split; [reflexivity|]. split; [|reflexivity].
  eexists. reflexivity.
Qed.

End Witness.

(** * Further properties of the router *)

Module RouterExtra.
Import Endpoint Pipes EndpointFacts.

Section Router.

Context {World : Type} {conversion : Conversion} {engine : Engine (World := World)}.
Implicit Types (h : gmap nat (Endpoint (World := World))).
Implicit Types (this e : Endpoint (World := World)).
Implicit Types (request : Message.Request) (w : World).

(** After the first assignments of [route], [request.silent === false]
    holds exactly when the flag was falsy. *)
Lemma is_false_normalize request :
  is_false (Message.silent (normalize request)) = negb (truthy (Message.silent request)).
Proof.
  cbn. unfold or_else. destruct (truthy (Message.silent request)) eqn:Hs; [|reflexivity].
  destruct (Message.silent request) as [| |[]| | | | | | |]; try reflexivity; discriminate.
Qed.

(** [_routeCall] returns a promise or a Response, unless what it called
    threw a value that [Logger.error] in turn throws on. *)
Lemma _routeCall_outcome (held : Held) args w :
  (exists v, fst (_routeCall held args w) = Ret v
             /\ ((exists p, v = VPromise p) \/ exists r, v = VResponse r))
  \/ (exists err raised w',
        apply held args w = (Thr err, w')
        /\ Logger_error err = Thr raised
        /\ fst (_routeCall held args w) = Thr raised).
Proof.
  unfold _routeCall, try_catch, bind.
  destruct (apply held args w) as [[v|err] w'] eqn:Hcall; cbn.
  - left. destruct v; cbn; eauto.
  - destruct (Logger_error err) as [[]|raised] eqn:Hlog; cbn.
    + left. eauto.
    + right. exists err, raised, w'. auto.
Qed.

(** What [route] lets through, and what it returns.  An exception leaves
    [route] in two cases only: reading [routes] under the name threw, or
    what the name resolved to threw a value that [Logger.error] could not
    turn into a string, and it is the exception of that conversion.
    Otherwise [route] returns [undefined], a promise or a Response; for a
    request whose [silent] is falsy it never returns [undefined]; and when
    nothing answers to the name it returns the Unknown response, even for
    a silent request. *)
Theorem route_returns h this request port w :
  (exists v,
      fst (route h this request port w) = Ret v
      /\ (v = VUndefined \/ (exists p, v = VPromise p) \/ (exists r, v = VResponse r))
      /\ (truthy (Message.silent request) = false -> v <> VUndefined)
      /\ (_findRoute h this request = Ret None -> exists r, v = VResponse r /\ code r = 404))
  \/ (exists raised,
        fst (route h this request port w) = Thr raised
        /\ (routes_get this (Message.name request) = Thr raised
            \/ exists held err w',
                 _findRoute h this request = Ret (Some held)
                 /\ apply held (_buildArguments (normalize request) port) w = (Thr err, w')
                 /\ Logger_error err = Thr raised)).
Proof.
  unfold route. rewrite _findRoute_normalize.
  destruct (_findRoute h this request) as [[held|]|raised] eqn:Hfind.
  - destruct (truthy_held held).
    + destruct (_routeCall_outcome held (_buildArguments (normalize request) port) w)
        as [(v & Hv & Hshape) | (err & raised & w' & Hcall & Hlog & Hraised)].
      * left. unfold bind.
        destruct (_routeCall held _ w) as [res w']. cbn in Hv. subst res.
        rewrite is_false_normalize.
        destruct (truthy (Message.silent request)); cbn.
        -- exists VUndefined. repeat split; auto; discriminate.
        -- exists v. repeat split; auto; try discriminate.
           intros _ ->. destruct Hshape as [(p & Hp)|(r & Hr)]; discriminate.
      * right. exists raised. split.
        -- unfold bind. destruct (_routeCall held _ w) as [res w'']. cbn in Hraised.
           subst res. reflexivity.
        -- right. exists held, err, w'. auto.
    + left. eexists. cbn. repeat split; eauto; discriminate.
  - left. eexists. cbn. repeat split; eauto; discriminate.
  - right. exists raised. split; [reflexivity|]. left.
    unfold _findRoute in Hfind.
    destruct (routes_get this (Message.name request)) as [held|err]; [|congruence].
    destruct (negb (is_undefined held)); [discriminate|].
    destruct (includes (pipes_plain this) (Message.name request)); discriminate.
Qed.

(** Of a request, [route] reads the name, the params and whether [silent]
    is truthy, and nothing else: [id], [delay] and [async] change nothing
    (the call is never deferred), and any truthy [silent] silences the call
    as [true] does. *)
Theorem route_reads request request' h this port w :
  Message.name request = Message.name request' ->
  Message.params request = Message.params request' ->
  truthy (Message.silent request) = truthy (Message.silent request') ->
  route h this request port w = route h this request' port w.
Proof.
  intros Hname Hparams Hsilent. unfold route.
  rewrite !_findRoute_normalize.
  assert (Hfind : _findRoute h this request = _findRoute h this request').
  { unfold _findRoute. rewrite Hname. reflexivity. }
  assert (Hargs : _buildArguments (normalize request) port
                  = _buildArguments (normalize request') port).
  { unfold _buildArguments. cbn. rewrite Hparams. reflexivity. }
  rewrite Hfind, Hargs, !is_false_normalize, Hsilent.
  unfold unknown_route. cbn [normalize Message.name].
  rewrite Hname. reflexivity.
Qed.

(** The handler of a pipe depends on the endpoint through its class and
    its forwarder only. *)
Lemma _createPipe_same h this this' (name : string) :
  cls this' = cls this -> forwarder this' = forwarder this ->
  _createPipe h this' name = _createPipe h this name.
Proof.
  intros Hcls Hfw. unfold _createPipe, forward. rewrite Hcls, Hfw. reflexivity.
Qed.

Lemma _findRoute_regexp_same h this this' (l : list (option RegExp)) (name : string) :
  cls this' = cls this -> forwarder this' = forwarder this ->
  _findRoute_regexp h this' l name = _findRoute_regexp h this l name.
Proof.
  intros Hcls Hfw. induction l as [|[r|] l IH]; cbn; [reflexivity| |exact IH].
  rewrite IH, (_createPipe_same h this this' name Hcls Hfw). reflexivity.
Qed.

(** Resolution looks at [routes] under the one name, and at the pipes. *)
Lemma _findRoute_same h this this' request :
  routes_get this' (Message.name request) = routes_get this (Message.name request) ->
  pipes_plain this' = pipes_plain this -> pipes_regexp this' = pipes_regexp this ->
  cls this' = cls this -> forwarder this' = forwarder this ->
  _findRoute h this' request = _findRoute h this request.
Proof.
  intros Hget Hplain Hregexp Hcls Hfw. unfold _findRoute.
  rewrite Hget, Hplain, Hregexp.
  rewrite (_findRoute_regexp_same h this this' _ _ Hcls Hfw).
  rewrite (_createPipe_same h this this' _ Hcls Hfw). reflexivity.
Qed.

(** [on] with anything but a function throws a string that names the
    route.  With a function, on an endpoint whose [routes] has the
    prototype it started with, and for any name but ["__proto__"], it
    registers: the function becomes an own property of [routes], the name
    then resolves to it, whatever was inherited or piped under it, and
    every other name resolves as it did.  The name ["__proto__"] registers
    nothing: the function becomes the prototype of [routes], so that
    [routes] from then on inherits what that function shows. *)
Theorem on_registers e (name : string) (handler : Handler (World := World)) :
  on e name None = Thr (VStr ("Handler for '" ++ name ++ "' is not a function"))
  /\ (routes_proto e = ObjectPrototype -> name <> "__proto__" ->
      on e name (Some handler) = Ret (set_routes (insert name handler) e)
      /\ forall h request,
          (Message.name request = name ->
           _findRoute h (set_routes (insert name handler) e) request
           = Ret (Some (Callable handler)))
          /\ (Message.name request <> name ->
              _findRoute h (set_routes (insert name handler) e) request
              = _findRoute h e request))
  /\ (routes_proto e = ObjectPrototype -> routes e !! "__proto__" = None ->
      on e "__proto__" (Some handler) = Ret (set_routes_proto (FunctionObject handler) e)
      /\ routes (set_routes_proto (FunctionObject handler) e) = routes e
      /\ forall name', routes e !! name' = None ->
           routes_get (set_routes_proto (FunctionObject handler) e) name'
           = function_get handler name').
Proof.
  split; [reflexivity|]. split.
  - intros Hproto Hname. split.
    + unfold on. destruct (routes e !! name); [reflexivity|].
      rewrite Hproto. cbn.
      destruct (String.eqb_spec name "__proto__"); [contradiction | reflexivity].
    + intros h request. split.
      * intros Hreq. apply _findRoute_registered. cbn. rewrite Hreq.
        apply lookup_insert_eq.
      * intros Hne. apply _findRoute_same; try reflexivity.
        unfold routes_get. cbn. rewrite lookup_insert_ne by congruence. reflexivity.
  - intros Hproto Hnone. split; [|split].
    + unfold on. rewrite Hnone, Hproto. reflexivity.
    + reflexivity.
    + intros name' Hnone'. unfold routes_get. cbn. rewrite Hnone'. reflexivity.
Qed.

(** [off] deletes the handler registered under the name, and only that:
    the name then resolves as one that was never registered, to what
    [routes] inherits under it if anything, and else through the pipes;
    every other name resolves as it did.  [off] of a name that is not
    registered changes nothing.  It throws only if reading a name that is
    not registered does. *)
Theorem off_unregisters e (name : string) :
  (forall handler, routes e !! name = Some handler ->
      off e name = Ret (set_routes (delete name) e))
  /\ (routes e !! name = None ->
      forall held, inherited (routes_proto e) name = Ret held -> off e name = Ret e)
  /\ (forall err, off e name = Thr err ->
      routes e !! name = None /\ inherited (routes_proto e) name = Thr err)
  /\ (forall e', off e name = Ret e' ->
      routes e' !! name = None
      /\ routes_get e' name = inherited (routes_proto e) name
      /\ forall h request,
          (Message.name request = name -> routes_proto e = ObjectPrototype ->
           is_inherited name = false ->
           _findRoute h e' request
           = Ret (if includes (pipes_plain e) name then Some (Callable (_createPipe h e name))
                  else Callable <$> _findRoute_regexp h e (pipes_regexp e) name))
          /\ (Message.name request <> name ->
              _findRoute h e' request = _findRoute h e request)).
Proof.
  assert (Hoff : off e name = Ret (set_routes (delete name) e)
                 \/ (routes e !! name = None /\ off e name = Ret e)
                 \/ (routes e !! name = None
                     /\ exists err, inherited (routes_proto e) name = Thr err
                                    /\ off e name = Thr err)).
  { unfold off. destruct (routes e !! name); [left; reflexivity|].
    destruct (inherited (routes_proto e) name) as [held|err]; eauto 6. }
  assert (Hdeleted : forall e', e' = set_routes (delete name) e \/
                                (routes e !! name = None /\ e' = e) ->
            routes e' !! name = None
            /\ routes_proto e' = routes_proto e
            /\ pipes_plain e' = pipes_plain e /\ pipes_regexp e' = pipes_regexp e
            /\ cls e' = cls e /\ forwarder e' = forwarder e
            /\ forall other, other <> name -> routes e' !! other = routes e !! other).
  { intros e' [-> | (Hnone & ->)].
    - cbn. rewrite lookup_delete_eq. repeat split; try reflexivity.
      intros other Hne. apply lookup_delete_ne. congruence.
    - repeat split; try reflexivity. exact Hnone. }
  split; [|split; [|split]].
  - intros handler Hreg. unfold off. rewrite Hreg. reflexivity.
  - intros Hnone held Hheld. unfold off. rewrite Hnone, Hheld. reflexivity.
  - intros err Herr. destruct Hoff as [Hoff | [(_ & Hoff) | (Hnone & err' & Hin & Hoff)]];
      [congruence | congruence |].
    split; [exact Hnone | congruence].
  - intros e' He'.
    assert (Hcase : e' = set_routes (delete name) e \/ (routes e !! name = None /\ e' = e)).
    { destruct Hoff as [Hoff | [(Hnone & Hoff) | (_ & err & _ & Hoff)]];
        [left | right | ]; try congruence. split; [exact Hnone | congruence]. }
    destruct (Hdeleted e' Hcase) as (Hgone & Hproto & Hplain & Hregexp & Hcls & Hfw & Hother).
    assert (Hget : routes_get e' name = inherited (routes_proto e) name).
    { unfold routes_get. rewrite Hgone, Hproto. reflexivity. }
    split; [exact Hgone|]. split; [exact Hget|].
    intros h request. split.
    + intros Hreq Hfresh Hnot. unfold _findRoute. rewrite Hreq, Hget, Hfresh. cbn.
      rewrite (Object_prototype_none _ Hnot). cbn. rewrite Hplain, Hregexp.
      rewrite (_findRoute_regexp_same h e e' _ _ Hcls Hfw).
      rewrite (_createPipe_same h e e' _ Hcls Hfw).
      destruct (includes (pipes_plain e) name); reflexivity.
    + intros Hne. apply _findRoute_same; try assumption.
      unfold routes_get. rewrite Hother, Hproto by exact Hne. reflexivity.
Qed.

Lemma pipe_app e (rs rs' : list PipeArg) :
  Forall (fun r => r <> POther) rs -> pipe e (rs ++ rs') = pipe (pipe e rs) rs'.
Proof.
  intros Hvalid. revert e. induction Hvalid as [|r rs Hr _ IH]; intros e; [reflexivity|].
  destruct r; cbn; [apply IH | apply IH | contradiction].
Qed.

Lemma pipe_slots e (rs : list PipeArg) :
  pipes_plain (pipe e rs) = (pipes_plain e ++ plain_slots rs)%list
  /\ pipes_regexp (pipe e rs) = (pipes_regexp e ++ regexp_slots rs)%list
  /\ routes (pipe e rs) = routes e
  /\ forwarder (pipe e rs) = forwarder e.
Proof.
  revert e. induction rs as [|r rs IH]; intros e; cbn.
  - rewrite !app_nil_r. repeat split; reflexivity.
  - destruct r; cbn.
    + destruct (IH (set_pipes_plain (fun l => (l ++ [Some s])%list) e))
        as (Hp & Hr & Hroutes & Hfw).
      rewrite Hp, Hr, Hroutes, Hfw. cbn. rewrite <- app_assoc. repeat split; reflexivity.
    + destruct (IH (set_pipes_regexp (fun l => (l ++ [Some r])%list) e))
        as (Hp & Hr & Hroutes & Hfw).
      rewrite Hp, Hr, Hroutes, Hfw. cbn. rewrite <- app_assoc. repeat split; reflexivity.
    + rewrite !app_nil_r. repeat split; reflexivity.
Qed.

(** [pipe] adds its strings and its patterns at the end of the two lists,
    in the order given, and touches nothing else; at the first argument
    that is neither a string nor a pattern it stops, so that the arguments
    after it are not registered. *)
Theorem pipe_registers e (rs rest : list PipeArg) :
  pipes_plain (pipe e rs) = (pipes_plain e ++ plain_slots rs)%list
  /\ pipes_regexp (pipe e rs) = (pipes_regexp e ++ regexp_slots rs)%list
  /\ routes (pipe e rs) = routes e
  /\ forwarder (pipe e rs) = forwarder e
  /\ pipe e (rs ++ POther :: rest) = pipe e rs.
Proof.
  destruct (pipe_slots e rs) as (Hp & Hr & Hroutes & Hfw).
  repeat split; try assumption.
  clear. revert e. induction rs as [|r rs IH]; intros e; [reflexivity|].
  destruct r; cbn; [apply IH | apply IH | reflexivity].
Qed.

Lemma delete_slot_cons {A : Type} (same : A -> A -> bool) (x : A) (slot : option A)
    (l : list (option A)) :
  delete_slot same x (slot :: l) =
    match slot with
    | Some y => if same y x then None :: l else slot :: delete_slot same x l
    | None => slot :: delete_slot same x l
    end.
Proof.
  unfold delete_slot. cbn.
  destruct slot as [y|]; [destruct (same y x); [reflexivity|]|];
    destruct (indexOf same l x); reflexivity.
Qed.

Lemma includes_cons (slot : option string) (l : list (option string)) (name : string) :
  includes (slot :: l) name =
    (match slot with Some s => String.eqb s name | None => false end) || includes l name.
Proof. reflexivity. Qed.

Lemma occurrences_cons (slot : option string) (l : list (option string)) (name : string) :
  occurrences name (slot :: l) =
    if match slot with Some s => String.eqb s name | None => false end
    then S (occurrences name l) else occurrences name l.
Proof.
  unfold occurrences. cbn.
  destruct (match slot with Some s => String.eqb s name | None => false end); reflexivity.
Qed.

Lemma includes_occurrences (l : list (option string)) (name : string) :
  includes l name = negb (Nat.eqb (occurrences name l) 0).
Proof.
  induction l as [|slot l IH]; [reflexivity|].
  rewrite includes_cons, occurrences_cons, IH.
  destruct (match slot with Some s => String.eqb s name | None => false end); reflexivity.
Qed.

Lemma delete_slot_plain (s name : string) (l : list (option string)) :
  length (delete_slot String.eqb s l) = length l
  /\ includes (delete_slot String.eqb s l) name =
       if String.eqb name s then Nat.ltb 1 (occurrences s l) else includes l name.
Proof.
  induction l as [|slot l (IHlen & IHinc)].
  - cbn. destruct (String.eqb name s); split; reflexivity.
  - rewrite delete_slot_cons. destruct slot as [y|].
    + destruct (String.eqb_spec y s) as [->|Hys].
      * split; [reflexivity|].
        rewrite !includes_cons, occurrences_cons, String.eqb_refl. cbn [orb].
        destruct (String.eqb_spec name s) as [->|Hns].
        -- rewrite includes_occurrences.
           destruct (occurrences s l); reflexivity.
        -- destruct (String.eqb_spec s name) as [->|_]; [contradiction|reflexivity].
      * split; [cbn; rewrite IHlen; reflexivity|].
        rewrite !includes_cons, IHinc, occurrences_cons.
        destruct (String.eqb_spec y s) as [Heq|_]; [contradiction|].
        destruct (String.eqb_spec name s) as [->|Hns]; [|reflexivity].
        destruct (String.eqb_spec y s) as [Heq|_]; [contradiction|reflexivity].
    + split; [cbn; rewrite IHlen; reflexivity|].
      rewrite !includes_cons, IHinc, occurrences_cons. reflexivity.
Qed.

(** [unpipe] of a string empties the first entry that holds it and leaves
    the list as long as it was.  The name is still piped afterwards exactly
    when it had been piped more than once; for every other name nothing
    changes; and [unpipe] of a string that is not piped changes nothing. *)
Theorem unpipe_plain e (s name : string) :
  let e' := unpipe e [PString s] in
  length (pipes_plain e') = length (pipes_plain e)
  /\ includes (pipes_plain e') name =
       (if String.eqb name s then Nat.ltb 1 (occurrences s (pipes_plain e))
        else includes (pipes_plain e) name)
  /\ pipes_regexp e' = pipes_regexp e
  /\ routes e' = routes e
  /\ (includes (pipes_plain e) s = false -> pipes_plain e' = pipes_plain e).
Proof.
  cbn [unpipe]. cbn [pipes_plain pipes_regexp routes set_pipes_plain].
  destruct (delete_slot_plain s name (pipes_plain e)) as (Hlen & Hinc).
  repeat split; try assumption.
  intros Hnot. unfold delete_slot.
  assert (Hidx : forall l, includes l s = false -> indexOf String.eqb l s = None).
  { clear. induction l as [|[y|] l IH]; cbn; [reflexivity| |].
    - intros H. apply orb_false_iff in H as [Hy Hl]. rewrite Hy, (IH Hl). reflexivity.
    - intros H. rewrite (IH H). reflexivity. }
  rewrite (Hidx _ Hnot). reflexivity.
Qed.

(** [join] links the two endpoints and unlinks nobody: when [a], joined
    with [b], is joined with [c], then [a] and [c] hold each other, and
    [b] still holds [a], so that what [b] pipes keeps reaching [a] (its
    [request], or failing that its [post]) while nothing of [a] reaches
    [b] any more. *)
Theorem join_again h (a b c : nat) ea eb ec (route : string) (params : Value) w :
  a <> b -> a <> c -> b <> c ->
  h !! a = Some ea -> h !! b = Some eb -> h !! c = Some ec ->
  let h' := join (join h a b) a c in
  h' !! a = Some (set_forwarder (FwEndpoint c) ea)
  /\ h' !! c = Some (set_forwarder (FwEndpoint a) ec)
  /\ h' !! b = Some (set_forwarder (FwEndpoint a) eb)
  /\ forward h' (set_forwarder (FwEndpoint a) eb) route params w =
       match request ea with
       | Some rq => rq route params w
       | None =>
           match post ea with
           | Some ps => ps route params w
           | None => (Ret VUndefined, w)
           end
       end.
Proof.
  intros Hab Hac Hbc Ha Hb Hc h'.
  destruct (join_lookup h a b ea eb Hab Ha Hb) as (Ha1 & Hb1).
  assert (Hc1 : join h a b !! c = Some ec).
  { unfold join. rewrite !lookup_alter_ne by congruence. exact Hc. }
  destruct (join_lookup (join h a b) a c _ ec Hac Ha1 Hc1) as (Ha2 & Hc2).
  assert (Hb2 : h' !! b = Some (set_forwarder (FwEndpoint a) eb)).
  { unfold h', join at 1. rewrite !lookup_alter_ne by congruence. exact Hb1. }
  split; [exact Ha2|]. split; [exact Hc2|]. split; [exact Hb2|].
  rewrite (forward_to_endpoint h' (set_forwarder (FwEndpoint a) eb) a
             (set_forwarder (FwEndpoint c) ea) route params w eq_refl Ha2).
  reflexivity.
Qed.

(** What a pipe forwards as params, from the arguments that [route]
    builds.  Without a port, and on a [BackgroundListener] with one, the
    params of the request are forwarded as they are, except that an array
    of one item is forwarded as that item and an empty array as [null].
    On any other endpoint a port given to [route] is forwarded too, at the
    head of the params; and a [BackgroundListener] routing without a port
    takes the first of the params for one and drops it. *)
Theorem pipe_forwards_params request (port : Value) :
  let params := Message.params request in
  let items := match params with VArr items => items | p => [p] end in
  let unwrapped := match items with [] => VNull | [x] => x | _ => VArr items end in
  (truthy port = false ->
   pipe_params ClsEndpoint (_buildArguments request port) = unwrapped
   /\ pipe_params ClsBackgroundListener (_buildArguments request port) =
        match items with
        | [_] => VNull
        | [_; x] => x
        | _ => VArr (tail items)
        end)
  /\ (truthy port = true ->
      pipe_params ClsBackgroundListener (_buildArguments request port) = unwrapped
      /\ pipe_params ClsEndpoint (_buildArguments request port) =
           match items with [] => port | _ => VArr (port :: items) end)
  /\ (is_array params = false \/ (exists x y rest, params = VArr (x :: y :: rest)) ->
      unwrapped = params).
Proof.
  cbn zeta. unfold _buildArguments. split; [|split].
  - intros ->. destruct (Message.params request); cbn; split; reflexivity.
  - intros ->. destruct (Message.params request); cbn; split; reflexivity.
  - intros [Hnot | (x & y & rest & ->)]; [|reflexivity].
    destruct (Message.params request); try reflexivity; discriminate.
Qed.

End Router.
End RouterExtra.

(** * Further properties of the transport adapters *)

Module AdapterExtra.
Import Endpoint EndpointFacts.

Section Adapters.

Context {World : Type} {conversion : Conversion} {engine : Engine (World := World)}.
Variable ToNumber : Value -> option Z.
Variable sendNativeMessage : string -> Message.Request -> World -> Settlement * World.
Implicit Types (h : gmap nat (Endpoint (World := World))).
Implicit Types (this : Endpoint (World := World)).
Implicit Types (message : Message.Request) (w : World).

(** What [handleRequest] makes of the [undefined] that [route] returns
    for a silent request. *)
Lemma handleRequest_undefined h this message (port : Value) w w' :
  route h this message port w = (Ret VUndefined, w') ->
  BackgroundListener.handleRequest ToNumber h this message port w
  = (Ret (Rejected (TypeError_read "code")), w').
Proof.
  intros Hroute. unfold BackgroundListener.handleRequest, bind. rewrite Hroute.
  reflexivity.
Qed.

(** A silent request that comes by [sendMessage] runs its handler and is
    then rejected: [route] returns no value, and the executor of
    [handleRequest] throws a [TypeError] on reading its [code].  This is
    so whatever the handler returned, and also if it threw a value that
    could be logged; if logging that value throws, the exception leaves
    [handleRequest], which returns no promise. *)
Theorem handleRequest_silent h this message (port : Value) (handler : Handler) w :
  truthy (Message.silent message) = true ->
  _findRoute h this message = Ret (Some (Callable handler)) ->
  (forall v w',
      handler (_buildArguments (normalize message) port) w = (Ret v, w') ->
      exists what,
        BackgroundListener.handleRequest ToNumber h this message port w
        = (Ret (Rejected (VError "TypeError" what)), w'))
  /\ (forall err w',
      handler (_buildArguments (normalize message) port) w = (Thr err, w') ->
      Logger_error err = Ret tt ->
      exists what,
        BackgroundListener.handleRequest ToNumber h this message port w
        = (Ret (Rejected (VError "TypeError" what)), w'))
  /\ (forall err raised w',
      handler (_buildArguments (normalize message) port) w = (Thr err, w') ->
      Logger_error err = Thr raised ->
      BackgroundListener.handleRequest ToNumber h this message port w = (Thr raised, w')).
Proof.
  intros Hsilent Hfind.
  assert (Hroute : route h this message port w =
            (response <- _routeCall (Callable handler)
                           (_buildArguments (normalize message) port);;
             ret VUndefined)%eff w).
  { rewrite (route_resolved h this message port handler w Hfind).
    rewrite RouterExtra.is_false_normalize, Hsilent. reflexivity. }
  split; [|split].
  - intros v w' Hret. eexists. apply handleRequest_undefined.
    rewrite Hroute. unfold bind at 1. rewrite (_routeCall_returns _ _ _ _ _ Hret).
    reflexivity.
  - intros err w' Hthrow Hlog. eexists. apply handleRequest_undefined.
    rewrite Hroute. unfold bind at 1. rewrite (_routeCall_throws _ _ _ _ _ Hthrow), Hlog.
    reflexivity.
  - intros err raised w' Hthrow Hlog. unfold BackgroundListener.handleRequest.
    unfold bind at 1. rewrite Hroute.
    unfold bind at 1. rewrite (_routeCall_throws _ _ _ _ _ Hthrow), Hlog.
    reflexivity.
Qed.

(** A request for a route that does not exist is rejected, silent or not,
    with a ScriptError response: the code 404 of the router's answer is
    replaced by 500, and only its message is kept. *)
Theorem handleRequest_unknown_route h this message (port : Value) w :
  _findRoute h this message = Ret None ->
  BackgroundListener.handleRequest ToNumber h this message port w
  = (Ret (Rejected
            (VResponse
               (ScriptError VUndefined VNull
                  (VStr ("Unknown route '" ++ Message.name message ++ "'"))))), w).
Proof.
  intros Hfind. unfold BackgroundListener.handleRequest, bind.
  rewrite (route_unresolved h this message port w Hfind). reflexivity.
Qed.

(** When the handler of a request by [sendMessage] throws a value that
    can be logged, the request is rejected with a ScriptError response of
    code 500 that carries the message of the thrown value ([undefined] if
    it has none): the Failure of code 403 that the router made of the
    exception does not reach the caller.  When logging the thrown value
    throws, that exception leaves [handleRequest]. *)
Theorem handleRequest_handler_throws h this message (port : Value) (handler : Handler)
    (err : Value) w w' :
  _findRoute h this message = Ret (Some (Callable handler)) ->
  truthy (Message.silent message) = false ->
  handler (_buildArguments (normalize message) port) w = (Thr err, w') ->
  (Logger_error err = Ret tt ->
   typeof_object (get_opt err "message") = false ->
   BackgroundListener.handleRequest ToNumber h this message port w
   = (Ret (Rejected (VResponse (ScriptError VUndefined VNull (get_opt err "message")))), w'))
  /\ (forall raised, Logger_error err = Thr raised ->
      BackgroundListener.handleRequest ToNumber h this message port w = (Thr raised, w')).
Proof.
  intros Hfind Hsilent Hthrow.
  assert (Hroute : route h this message port w =
            (match Logger_error err with
             | Ret _ => Ret (VResponse (Failure VUndefined VNull (get_opt err "message")))
             | Thr raised => Thr raised
             end, w')).
  { rewrite (route_resolved h this message port handler w Hfind).
    rewrite RouterExtra.is_false_normalize, Hsilent. cbn [negb].
    unfold bind at 1. rewrite (_routeCall_throws _ _ _ _ _ Hthrow).
    destruct (Logger_error err); reflexivity. }
  split.
  - intros Hlog Hmsg. unfold BackgroundListener.handleRequest, bind.
    rewrite Hroute, Hlog. cbn. unfold BackgroundListener.executor. cbn.
    rewrite (MessageFacts.error_of_primitive _ _ _ Hmsg). reflexivity.
  - intros raised Hlog. unfold BackgroundListener.handleRequest, bind.
    rewrite Hroute, Hlog. reflexivity.
Qed.

(** When the handler of a request by [sendMessage] returns a promise, the
    listener returns that promise; when it returns a value that is neither
    a promise nor a Response, the request is resolved with a Success
    response whose content is the value. *)
Theorem handleRequest_handler_returns h this message (port : Value) (handler : Handler)
    (v : Value) w w' :
  _findRoute h this message = Ret (Some (Callable handler)) ->
  truthy (Message.silent message) = false ->
  handler (_buildArguments (normalize message) port) w = (Ret v, w') ->
  (forall handle, v = VPromise handle ->
     BackgroundListener.handleRequest ToNumber h this message port w
     = (Ret (Returned handle), w'))
  /\ (instanceof_Promise v = false -> instanceof_Response v = false ->
      BackgroundListener.handleRequest ToNumber h this message port w
      = (Ret (Resolved (VResponse (Success VUndefined VUndefined v))), w')).
Proof.
  intros Hfind Hsilent Hret.
  assert (Hroute : route h this message port w =
            (Ret (if instanceof_Promise v then v
                  else if instanceof_Response v then v
                  else VResponse (Message.success v VUndefined)), w')).
  { rewrite (route_resolved h this message port handler w Hfind).
    rewrite RouterExtra.is_false_normalize, Hsilent. cbn [negb].
    unfold bind at 1. rewrite (_routeCall_returns _ _ _ _ _ Hret). reflexivity. }
  unfold BackgroundListener.handleRequest, bind. rewrite Hroute. split.
  - intros handle ->. reflexivity.
  - intros Hp Hr. rewrite Hp, Hr. reflexivity.
Qed.

(** [NativeHostClient.request] when no usable reply comes.  A failure of
    the transport rejects with a ScriptError response of code 500: its
    message is the error itself when that is not an object, and the
    error's message when it is an [Error] with one.  A reply that is
    [null] or [undefined] settles nothing: the promise stays pending. *)
Theorem request_without_reply (route : string) (params async : Value) w w1
    (settlement : Settlement) :
  sendNativeMessage NativeHostClient.COMPANION_HOST
    (NativeHostClient.build_request route params async) w = (settlement, w1) ->
  (forall error, settlement = Rejects error -> typeof_object error = false ->
     NativeHostClient.request ToNumber sendNativeMessage route params async w
     = (Rejected (VResponse (ScriptError VUndefined VNull error)), w1))
  /\ (forall class text, settlement = Rejects (VError class text) -> text <> "" ->
      NativeHostClient.request ToNumber sendNativeMessage route params async w
      = (Rejected (VResponse (ScriptError VUndefined VNull (VStr text))), w1))
  /\ (forall reply, settlement = Fulfills reply -> is_nullish reply = true ->
      NativeHostClient.request ToNumber sendNativeMessage route params async w
      = (Pending, w1)).
Proof.
  intros Hsend. unfold NativeHostClient.request. rewrite Hsend. repeat split.
  - intros error -> Hprim. unfold NativeHostClient.on_error.
    rewrite (MessageFacts.error_of_primitive _ _ _ Hprim). reflexivity.
  - intros class text -> Htext. unfold NativeHostClient.on_error.
    unfold Message.error, Message.new_ScriptError. cbn.
    destruct (String.eqb_spec text "") as [Heq|_]; [contradiction|]. reflexivity.
  - intros reply -> Hnull. unfold NativeHostClient.on_response. rewrite Hnull.
    reflexivity.
Qed.

End Adapters.
End AdapterExtra.

(** * Further properties of the messages *)

Module MessageExtra.
Import Misc.

Lemma own_assign_eq (property : string) (value : Value) (props : list (string * Value)) :
  own property (assign property value props) = Some value.
Proof.
  induction props as [|[k v] rest IH]; cbn.
  - rewrite String.eqb_refl. reflexivity.
  - destruct (String.eqb property k) eqn:Hk; cbn; rewrite Hk; [reflexivity | exact IH].
Qed.

Lemma own_assign_ne (property other : string) (value : Value)
    (props : list (string * Value)) :
  other <> property -> own other (assign property value props) = own other props.
Proof.
  intros Hne. induction props as [|[k v] rest IH]; cbn.
  - destruct (String.eqb_spec other property); [contradiction | reflexivity].
  - destruct (String.eqb_spec property k) as [<-|Hk]; cbn.
    + destruct (String.eqb_spec other property); [contradiction | reflexivity].
    + rewrite IH. reflexivity.
Qed.

Lemma own_set_ne (methods : list string) (props : list (string * Value))
    (property other : string) (value : Value) :
  other <> property -> own other (set methods props property value) = own other props.
Proof.
  intros Hne. unfold set. destruct (is_proto_accessor methods props property).
  - reflexivity.
  - apply own_assign_ne, Hne.
Qed.

(** The accessor is out of the way of every name but [__proto__], of an
    own property, and of a name that is an inherited method. *)
Lemma is_proto_accessor_false (methods : list string) (props : list (string * Value))
    (property : string) :
  property <> "__proto__" \/ is_Some (own property props)
  \/ existsb (String.eqb property) methods = true ->
  is_proto_accessor methods props property = false.
Proof.
  unfold is_proto_accessor. intros [Hne | [[v Hv] | Hin]].
  - destruct (String.eqb_spec property "__proto__"); [contradiction | reflexivity].
  - rewrite Hv. cbn. rewrite andb_false_r. reflexivity.
  - rewrite Hin. apply andb_false_r.
Qed.

(** [ensureType] on an object that inherits [methods].  A property whose
    [typeof] is the expected one is left alone, with the whole object; an
    inherited method counts as a function, so that it passes for no other
    type.  Any other property, own or inherited or missing, is given the
    default as an own property, and no other property changes; but where
    the name is that of the accessor [__proto__], no own property is
    made.  With a default of the expected type the property has that type
    afterwards, and a second call changes nothing. *)
Theorem ensureType_guards (methods : list string) (props : list (string * Value))
    (property expected : string) (value : Value) :
  let props' := ensureType methods props property expected value in
  (typeof_property methods props property = expected -> props' = props)
  /\ (typeof_property methods props property <> expected ->
      is_proto_accessor methods props property = false ->
      own property props' = Some value)
  /\ (is_proto_accessor methods props property = true -> props' = props)
  /\ (forall other, other <> property -> own other props' = own other props)
  /\ (typeof value = expected ->
      is_proto_accessor methods props property = false ->
      typeof_property methods props' property = expected
      /\ ensureType methods props' property expected value = props')
  /\ (own property props = None -> existsb (String.eqb property) methods = true ->
      typeof_property methods props property = "function")
  /\ (property <> "__proto__" \/ is_Some (own property props)
      \/ existsb (String.eqb property) methods = true ->
      is_proto_accessor methods props property = false).
Proof.
  cbn zeta. unfold ensureType.
  assert (Hmethod : own property props = None ->
                    existsb (String.eqb property) methods = true ->
                    typeof_property methods props property = "function").
  { intros Hnone Hin. unfold typeof_property. rewrite Hnone, Hin. reflexivity. }
  destruct (String.eqb_spec (typeof_property methods props property) expected)
    as [Hok|Hbad]; cbn [negb].
  - split; [reflexivity|]. split; [contradiction|].
    split; [reflexivity|]. split; [reflexivity|].
    split; [|split; [exact Hmethod | apply is_proto_accessor_false]].
    intros _ _. split; [exact Hok|].
    destruct (String.eqb_spec (typeof_property methods props property) expected);
      [reflexivity | contradiction].
  - split; [contradiction|].
    split; [intros _ Hcase; unfold set; rewrite Hcase; apply own_assign_eq|].
    split; [intros Hcase; unfold set; rewrite Hcase; reflexivity|].
    split; [intros other Hne; apply own_set_ne, Hne|].
    split; [|split; [exact Hmethod | apply is_proto_accessor_false]].
    intros Hvalue Hcase. unfold set. rewrite Hcase.
    assert (Htype : typeof_property methods (assign property value props) property
                    = expected).
    { unfold typeof_property. rewrite own_assign_eq. exact Hvalue. }
    split; [exact Htype|]. rewrite Htype.
    destruct (String.eqb_spec expected expected); [reflexivity | contradiction].
Qed.

(** What [check] leaves in each field. *)
Lemma check_fields (r : Message.Request) :
  check r =
    {| Message.name := Message.name r;
       Message.params := Message.params r;
       Message.id :=
         if String.eqb (typeof (Message.id r)) "string" then Message.id r else VStr "-1";
       Message.delay :=
         if String.eqb (typeof (Message.delay r)) "number" then Message.delay r else VNum 0;
       Message.async :=
         if String.eqb (typeof (Message.async r)) "boolean" then Message.async r
         else VBool false;
       Message.silent :=
         if String.eqb (typeof (Message.silent r)) "boolean" then Message.silent r
         else VBool false |}.
Proof.
  unfold check, typeOfNumber, typeOfBoolean, typeOfString, ensureType, typeof_property,
    set, is_proto_accessor, props_of_request.
  cbn [own assoc String.eqb Ascii.eqb Bool.eqb andb negb is_Some_b].
  destruct (String.eqb (typeof (Message.delay r)) "number");
    cbn [negb assign own assoc String.eqb Ascii.eqb Bool.eqb];
    destruct (String.eqb (typeof (Message.async r)) "boolean");
    cbn [negb assign own assoc String.eqb Ascii.eqb Bool.eqb];
    destruct (String.eqb (typeof (Message.silent r)) "boolean");
    cbn [negb assign own assoc String.eqb Ascii.eqb Bool.eqb];
    destruct (String.eqb (typeof (Message.id r)) "string");
    reflexivity.
Qed.

(** [check] keeps the name and the params, keeps each of [id], [delay],
    [async] and [silent] that has its type and resets the others to the
    defaults of the constructor.  So a request fresh from [Message.request]
    is unchanged, and a second [check] changes nothing. *)
Theorem check_normalizes (r : Message.Request) :
  Message.name (check r) = Message.name r
  /\ Message.params (check r) = Message.params r
  /\ (typeof (Message.id (check r)) = "string"
      /\ typeof (Message.delay (check r)) = "number"
      /\ typeof (Message.async (check r)) = "boolean"
      /\ typeof (Message.silent (check r)) = "boolean")
  /\ (typeof (Message.id r) = "string" -> typeof (Message.delay r) = "number" ->
      typeof (Message.async r) = "boolean" -> typeof (Message.silent r) = "boolean" ->
      check r = r)
  /\ (typeof (Message.id r) <> "string" -> Message.id (check r) = VStr "-1")
  /\ (typeof (Message.delay r) <> "number" -> Message.delay (check r) = VNum 0)
  /\ (typeof (Message.async r) <> "boolean" -> Message.async (check r) = VBool false)
  /\ (typeof (Message.silent r) <> "boolean" -> Message.silent (check r) = VBool false)
  /\ check (check r) = check r
  /\ forall name params, check (Message.request name params) = Message.request name params.
Proof.
  assert (Htyped :
            typeof (Message.id (check r)) = "string"
            /\ typeof (Message.delay (check r)) = "number"
            /\ typeof (Message.async (check r)) = "boolean"
            /\ typeof (Message.silent (check r)) = "boolean").
  { rewrite check_fields. cbn [Message.id Message.delay Message.async Message.silent].
    repeat split;
      match goal with
      | |- typeof (if String.eqb ?t ?e then _ else _) = _ =>
          destruct (String.eqb_spec t e); [assumption | reflexivity]
      end. }
  assert (Hkeep : forall r0 : Message.Request,
            typeof (Message.id r0) = "string" -> typeof (Message.delay r0) = "number" ->
            typeof (Message.async r0) = "boolean" -> typeof (Message.silent r0) = "boolean" ->
            check r0 = r0).
  { intros r0 Hid Hdelay Hasync Hsilent. rewrite check_fields.
    rewrite Hid, Hdelay, Hasync, Hsilent. destruct r0; reflexivity. }
  assert (Hreset : forall (t e : string) (v d : Value),
            t <> e -> (if String.eqb t e then v else d) = d).
  { intros t e v d Hne. destruct (String.eqb_spec t e); [contradiction | reflexivity]. }
  destruct Htyped as (Hid & Hdelay & Hasync & Hsilent).
  split; [rewrite check_fields; reflexivity|].
  split; [rewrite check_fields; reflexivity|].
  split; [auto|]. split; [apply Hkeep|].
  split; [intros Hne; rewrite check_fields; apply Hreset, Hne|].
  split; [intros Hne; rewrite check_fields; apply Hreset, Hne|].
  split; [intros Hne; rewrite check_fields; apply Hreset, Hne|].
  split; [intros Hne; rewrite check_fields; apply Hreset, Hne|].
  split; [apply Hkeep; assumption|].
  intros name params; reflexivity.
Qed.

(** What [ScriptError] takes for an [Error]: only an object with a truthy
    [message].  A value that is not an object, and an object whose
    [message] is missing, empty or otherwise falsy, is carried whole as the
    message of the response, whose type is then the [type] argument, or
    [null] without one. *)
Theorem error_keeps_payload (err type name : Value) :
  typeof_object err = false
  \/ (exists props, err = VObj props /\ truthy (assoc "message" props) = false) ->
  Message.error err type name = ScriptError name (or_else type VNull) err
  /\ code (Message.error err type name) = 500.
Proof.
  unfold Message.error, Message.new_ScriptError.
  intros [Hprim | (props & -> & Hmsg)].
  - rewrite Hprim. split; reflexivity.
  - cbn. rewrite Hmsg. split; reflexivity.
Qed.

End MessageExtra.

(** * Further properties of the download service *)

Module DownloadExtra.
Import DownloadService Downloads DownloadFacts.
Section Service.

Context {conversion : Conversion}.

Lemma assoc_sanitized (key : string) (job : list (string * Value)) :
  assoc key (_sanitizeJobProperties job) = if is_allowed key then assoc key job else VUndefined.
Proof.
  unfold _sanitizeJobProperties.
  induction job as [|[k v] rest IH]; cbn [List.filter assoc fst].
  - destruct (is_allowed key); reflexivity.
  - destruct (is_allowed k) eqn:Hk; cbn [assoc].
    + destruct (String.eqb_spec key k) as [->|Hne]; [rewrite Hk; reflexivity | exact IH].
    + destruct (String.eqb_spec key k) as [->|Hne]; [rewrite IH, Hk; reflexivity | exact IH].
Qed.

(** [_sanitizeJobProperties] keeps the properties whose key is one of the
    eight the downloads API accepts, with their values and in their order,
    and deletes every other; sanitizing twice is sanitizing once. *)
Theorem _sanitizeJobProperties_keeps_allowed (job : list (string * Value)) :
  Forall (fun entry => is_allowed (fst entry) = true) (_sanitizeJobProperties job)
  /\ (forall key, is_allowed key = true ->
        assoc key (_sanitizeJobProperties job) = assoc key job)
  /\ (forall key, is_allowed key = false ->
        assoc key (_sanitizeJobProperties job) = VUndefined)
  /\ _sanitizeJobProperties (_sanitizeJobProperties job) = _sanitizeJobProperties job
  /\ (Forall (fun entry => is_allowed (fst entry) = true) job ->
      _sanitizeJobProperties job = job).
Proof.
  split; [|split; [|split; [|split]]].
  - unfold _sanitizeJobProperties.
    induction job as [|[k v] rest IH]; cbn [List.filter fst]; [constructor|].
    destruct (is_allowed k) eqn:Hk; [constructor; assumption | exact IH].
  - intros key Hkey. rewrite assoc_sanitized, Hkey. reflexivity.
  - intros key Hkey. rewrite assoc_sanitized, Hkey. reflexivity.
  - unfold _sanitizeJobProperties.
    induction job as [|[k v] rest IH]; cbn [List.filter fst]; [reflexivity|].
    destruct (is_allowed k) eqn:Hk; cbn [List.filter fst];
      [rewrite Hk, IH; reflexivity | exact IH].
  - unfold _sanitizeJobProperties.
    induction 1 as [|[k v] rest Hk _ IH]; cbn [List.filter fst]; [reflexivity|].
    cbn [fst] in Hk. rewrite Hk, IH. reflexivity.
Qed.

(** [createJob] on a service that has no download directory, or an empty
    one, asks the browser for nothing and rejects with an object of code
    500.  Otherwise the browser is asked for a download whose filename is
    the job's, prefixed with the directory; of the job's other properties
    it gets those the downloads API accepts, so that [id] and [name] are
    withheld from it, while the response keeps them. *)
Theorem createJob_submits (s : Service) (job : DownloadJobLike) :
  (dirDownloads s = None \/ dirDownloads s = Some "" ->
   createJob s job
   = Refused (VObj [("code", VNum 500);
                    ("message",
                     VStr "DownloadService not configured (dirDownloads is null)")]))
  /\ (forall dir, dirDownloads s = Some dir -> dir <> "" ->
      exists options response,
        createJob s job = Requested options response (onFinish job)
        /\ assoc "filename" options = VStr (dir ++ filename job)
        /\ (forall key, key <> "filename" ->
              assoc key options
              = if is_allowed key then assoc key (others job) else VUndefined)
        /\ assoc "id" options = VUndefined /\ assoc "name" options = VUndefined
        /\ id response = assoc "id" (others job)
        /\ name response = assoc "name" (others job)
        /\ downloading response = false).
Proof.
  split.
  - intros [Hdir|Hdir]; unfold createJob; rewrite Hdir; reflexivity.
  - intros dir Hdir Hne. unfold createJob. rewrite Hdir.
    destruct (String.eqb_spec dir "") as [Heq|_]; [contradiction|].
    eexists. eexists. split; [reflexivity|].
    rewrite !assoc_sanitized. cbn [assoc].
    split; [reflexivity|]. split; [|repeat split; reflexivity].
    intros key Hkey. rewrite assoc_sanitized. cbn [assoc filename others].
    destruct (String.eqb_spec key "filename"); [contradiction | reflexivity].
Qed.



(** A delta without error whose state, if it has one, is not ["complete"]
    only brings the job's entry up to date: nobody is called, nothing is
    removed, and the job stays tracked, also when the state is
    ["interrupted"]. *)
Theorem _onChangedListener_progress ToNumber delta s j :
  jobs s !! delta_id delta = Some j ->
  delta_error delta = None ->
  is_Some (job_response j) \/ delta_filename delta = None ->
  (forall state, delta_state delta = Some state -> is_complete state = false) ->
  exists s',
    _onChangedListener ToNumber delta s = (Ret tt, s')
    /\ jobs s' = <[delta_id delta := refreshed delta j]> (jobs s)
    /\ trace s' = trace s
    /\ dirDownloads s' = dirDownloads s.
Proof.
  intros Hj Herr Hsafe Hstate. eexists. split.
  - unfold _onChangedListener. rewrite Hj.
    rewrite (with_job_present _ _ _ Hj) at 1.
    rewrite (refresh_run delta j s _ Herr Hsafe).
    destruct (delta_state delta) as [state|]; cbn [when_present]; [|reflexivity].
    rewrite match_complete, (Hstate state eq_refl). reflexivity.
  - repeat split.
Qed.


Lemma ended_fresh id (evs : list Event) j s :
  jobs s !! id = None ->
  ended id evs (with_job id j s)
  = {| dirDownloads := dirDownloads s; jobs := jobs s; trace := (trace s ++ evs)%list |}.
Proof.
  intros Hnone. unfold ended, with_job, set_jobs. cbn.
  rewrite delete_insert_id by exact Hnone. reflexivity.
Qed.


Lemma _onCreatedListener_untracked item s :
  jobs s !! item_id item = None ->
  _onCreatedListener item s
  = (Ret tt,
     with_job (item_id item)
       {| job_port := VNull; job_response := None; job_onFinish := None;
          job_id := item_id item; job_filename := item_filename item;
          job_fileSize := item_fileSize item; job_totalBytes := item_totalBytes item;
          job_exists := VUndefined |} s).
Proof. intros Hnone. unfold _onCreatedListener. rewrite Hnone. reflexivity. Qed.




(** A download that the service did not start is tracked all the same
    once the browser reports it created.  When it completes nobody is
    told, but if it has 0 bytes its file is removed and its history entry
    erased; and a delta that brings its filename makes the listener throw
    a [TypeError], the response of the entry being [null]. *)
Theorem foreign_download ToNumber s item (n : Z) :
  jobs s !! item_id item = None ->
  item_fileSize item = VNum n ->
  let id := item_id item in
  (_ <- _onCreatedListener item;;
   _onChangedListener ToNumber (state_only id (VStr "complete")))%eff s
  = (Ret tt,
     {| dirDownloads := dirDownloads s; jobs := jobs s;
        trace := (trace s ++ if Z.eqb n 0 then removal id else [])%list |})
  /\ forall delta (filename : Value),
      delta_id delta = id -> delta_error delta = None ->
      delta_filename delta = Some filename ->
      exists what s',
        (_ <- _onCreatedListener item;; _onChangedListener ToNumber delta)%eff s
        = (Thr (VError "TypeError" what), s').
Proof.
  intros Hnone Hsize. cbv zeta. split.
  - assert (Hstate : exists state,
               delta_state (state_only (item_id item) (VStr "complete")) = Some state
               /\ is_complete state = true) by (eexists; split; reflexivity).
    erewrite bind_Ret by (apply _onCreatedListener_untracked; exact Hnone).
    erewrite complete_run;
      [ | apply with_job_lookup | reflexivity | exact Hstate | right; reflexivity
        | exact I ].
    rewrite ended_fresh by exact Hnone.
    cbn. rewrite Hsize. cbn. destruct (Z.eqb n 0); reflexivity.
  - intros delta filename Hid Herr Hname.
    erewrite bind_Ret by (apply _onCreatedListener_untracked; exact Hnone).
    unfold _onChangedListener. rewrite Hid, with_job_lookup.
    rewrite Herr, Hname. cbn [when_present]. unfold bind at 1. cbn [ret].
    eexists. eexists. unfold bind at 1. unfold bind at 1.
    rewrite update_job_present. unfold write_destination.
    rewrite (bind_Ret _ _ _ _ _ (the_job_present (item_id item) "response" false _ s)).
    reflexivity.
Qed.

End Service.
End DownloadExtra.

(** * Further properties of the printer service *)

Module PrinterExtra.
Import PrinterService Printing.
Section Service.

Context {conversion : Conversion}.








End Service.
End PrinterExtra.

(** * Further properties of the native host client *)

Module NativeHostExtra.
Import NativeHostPort.

(** [connect] opens a port only when the client has none: called again,
    it answers [true] and asks the browser for nothing.  After the port
    is lost, by [disconnect] or because the host went away
    ([handleDisconnect]), the client is disconnected and the next
    [connect] opens a new port, not the old one. *)
Theorem connect_once (s : State) :
  fst (connect s) = true
  /\ connect (snd (connect s)) = (true, snd (connect s))
  /\ (isConnected s = true -> connect s = (true, s))
  /\ (forall p, port s = Some p ->
        disconnect s
        = (true, {| port := None; opened := opened s;
                    calls := (calls s ++ [PortDisconnect p])%list |}))
  /\ (isConnected s = false -> disconnect s = (true, s))
  /\ isConnected (handleDisconnect s) = false
  /\ (forall p, port s = Some p -> p < opened s ->
        port (snd (connect (handleDisconnect s))) = Some (opened s)
        /\ port (snd (connect (handleDisconnect s))) <> Some p
        /\ port (snd (connect (snd (disconnect s)))) <> Some p)%nat.
Proof.
  destruct s as [[p|] n cs]; unfold connect, disconnect, isConnected, handleDisconnect; cbn.
  - split; [reflexivity|]. split; [reflexivity|]. split; [reflexivity|].
    split; [intros p0 [= <-]; reflexivity|]. split; [discriminate|].
    split; [reflexivity|].
    intros p0 [= <-] Hlt. split; [reflexivity|].
    split; intros [= Heq]; lia.
  - split; [reflexivity|]. split; [reflexivity|]. split; [discriminate|].
    split; [discriminate|]. split; [reflexivity|]. split; [reflexivity|].
    discriminate.
Qed.

(** [post] follows the connection.  Once connected, it sends one message
    on the port the client holds: a request with the route as name, the
    params, the defaults of a new request and [async || false].  Once the
    port is lost, by [disconnect] or because the host went away, it sends
    nothing and throws nothing. *)
Theorem post_follows_connection (route : string) (params async : Value) (s : State) :
  (exists p,
      port (snd (connect s)) = Some p
      /\ calls (post route params async (snd (connect s)))
         = (calls (snd (connect s)) ++
            [PostMessage p
               {| Message.name := route; Message.params := params;
                  Message.id := VStr "-1"; Message.delay := VNum 0;
                  Message.async := or_else async (VBool false);
                  Message.silent := VBool false |}])%list)
  /\ post route params async (snd (disconnect s)) = snd (disconnect s)
  /\ post route params async (handleDisconnect s) = handleDisconnect s.
Proof.
  destruct s as [[p|] n cs]; unfold post, connect, disconnect, handleDisconnect; cbn.
  - split; [exists p; split; reflexivity|]. split; reflexivity.
  - split; [exists n; split; reflexivity|]. split; reflexivity.
Qed.

End NativeHostExtra.

(** * The further properties at work *)

Module WitnessExtra.
Import Endpoint Scenario.

(** A request with an id, a delay and the async flag is routed as the bare
    request for the same name. *)
Lemma route_reads_witness :
  route ∅ router elaborate VUndefined 0%nat
  = route ∅ router (Message.request "ping" VUndefined) VUndefined 0%nat.
Proof.
  apply (RouterExtra.route_reads elaborate (Message.request "ping" VUndefined)
           ∅ router VUndefined 0%nat); reflexivity.
Defined.

(** [right] joined with [left], then with a third endpoint: [left] still
    forwards to [right]. *)
Lemma join_again_witness :
  join (join heap3 0%nat 1%nat) 0%nat 2%nat !! 1%nat
  = Some (set_forwarder (FwEndpoint 0) left)
  /\ forward (join (join heap3 0%nat 1%nat) 0%nat 2%nat)
       (set_forwarder (FwEndpoint 0) left) "relay" VNull 0%nat
     = (Ret (VStr "relay"), 1%nat).
Proof.
  destruct (RouterExtra.join_again heap3 0%nat 1%nat 2%nat right left new_Endpoint
              "relay" VNull 0%nat
              ltac:(discriminate) ltac:(discriminate) ltac:(discriminate)
              eq_refl eq_refl eq_refl) as (_ & _ & Hleft & Hforward).
  split; [exact Hleft | exact Hforward].
Defined.

(** A silent ["ping"] by [sendMessage]: the handler runs, and the request
    is rejected. *)
Lemma handleRequest_silent_witness :
  exists what,
    BackgroundListener.handleRequest no_number ∅ router
      (silently (Message.request "ping" VUndefined)) VUndefined 0%nat
    = (Ret (Rejected (VError "TypeError" what)), 1%nat).
Proof.
  destruct (AdapterExtra.handleRequest_silent no_number ∅ router
              (silently (Message.request "ping" VUndefined)) VUndefined
              (counting (Ret (VStr "pong"))) 0%nat eq_refl eq_refl) as (Hreturns & _ & _).
  exact (Hreturns (VStr "pong") 1%nat eq_refl).
Defined.

Lemma handleRequest_unknown_route_witness :
  BackgroundListener.handleRequest no_number ∅ left
    (Message.request "nowhere" VUndefined) VUndefined 0%nat
  = (Ret (Rejected (VResponse (ScriptError VUndefined VNull
                                 (VStr "Unknown route 'nowhere'")))), 0%nat).
Proof.
  apply (AdapterExtra.handleRequest_unknown_route no_number ∅ left
           (Message.request "nowhere" VUndefined) VUndefined 0%nat). reflexivity.
Defined.

Lemma handleRequest_handler_throws_witness :
  BackgroundListener.handleRequest no_number ∅ router
    (Message.request "fail" VUndefined) VUndefined 0%nat
  = (Ret (Rejected (VResponse (ScriptError VUndefined VNull (VStr "boom")))), 1%nat).
Proof.
  exact (proj1 (AdapterExtra.handleRequest_handler_throws no_number ∅ router
                  (Message.request "fail" VUndefined) VUndefined
                  (counting (Thr (VError "Error" "boom"))) (VError "Error" "boom")
                  0%nat 1%nat eq_refl eq_refl eq_refl) eq_refl eq_refl).
Defined.

Lemma handleRequest_handler_returns_witness :
  BackgroundListener.handleRequest no_number ∅ router
    (Message.request "ping" VUndefined) VUndefined 0%nat
  = (Ret (Resolved (VResponse (Success VUndefined VUndefined (VStr "pong")))), 1%nat).
Proof.
  apply (AdapterExtra.handleRequest_handler_returns no_number ∅ router
           (Message.request "ping" VUndefined) VUndefined
           (counting (Ret (VStr "pong"))) (VStr "pong") 0%nat 1%nat); reflexivity.
Defined.

Lemma request_without_reply_witness :
  NativeHostClient.request no_number unreachable "companion.ping" VUndefined VUndefined 0%nat
  = (Rejected (VResponse (ScriptError VUndefined VNull (VStr "host not found"))), 1%nat).
Proof.
  apply (AdapterExtra.request_without_reply no_number unreachable "companion.ping"
           VUndefined VUndefined 0%nat 1%nat (Rejects (VStr "host not found")) eq_refl);
    reflexivity.
Defined.

Lemma error_keeps_payload_witness :
  Message.error (VObj [("message", VStr ""); ("type", VStr "T")]) VUndefined VUndefined
  = ScriptError VUndefined VNull (VObj [("message", VStr ""); ("type", VStr "T")]).
Proof.
  apply (MessageExtra.error_keeps_payload
           (VObj [("message", VStr ""); ("type", VStr "T")]) VUndefined VUndefined).
  right. eexists. split; reflexivity.
Defined.



(** The download 7 grows to 4096 bytes. *)
Lemma _onChangedListener_progress_witness :
  exists s',
    DownloadService._onChangedListener no_number progress (downloading 2048) = (Ret tt, s')
    /\ DownloadService.jobs s'
       = <[7 := DownloadService.with_fileSize (VNum 4096) (tracked 2048)]> {[ 7 := tracked 2048 ]}
    /\ DownloadService.trace s' = []
    /\ DownloadService.dirDownloads s' = Some "nmind/".
Proof.
  apply (DownloadExtra._onChangedListener_progress no_number progress (downloading 2048)
           (tracked 2048)).
  - reflexivity.
  - reflexivity.
  - left. eexists. reflexivity.
  - intros state [= <-]. reflexivity.
Defined.




(** An empty download that the service did not start, and one that the
    browser renames. *)
Lemma foreign_download_witness :
  (_ <- DownloadService._onCreatedListener (created 0);;
   DownloadService._onChangedListener no_number
     (Downloads.state_only 7 (VStr "complete")))%eff idle
  = (Ret tt,
     {| DownloadService.dirDownloads := Some "nmind/"; DownloadService.jobs := ∅;
        DownloadService.trace :=
          [DownloadService.CallRemoveFile 7; DownloadService.CallErase 7] |})
  /\ exists what s',
      (_ <- DownloadService._onCreatedListener (created 0);;
       DownloadService._onChangedListener no_number renamed)%eff idle
      = (Thr (VError "TypeError" what), s').
Proof.
  destruct (DownloadExtra.foreign_download no_number idle (created 0) 0 eq_refl eq_refl)
    as (Hremoved & Hthrows).
  split; [exact Hremoved|].
  exact (Hthrows renamed (VStr "nmind/report (1).pdf") eq_refl eq_refl eq_refl).
Defined.




End WitnessExtra.
